(** * Pareto-front renderer (optuna.visualization.matplotlib._pareto_front)

    A shallow embedding of [plot_pareto_front]'s dispatch and of the two
    drawing routines [_get_pareto_front_2d] and [_get_pareto_front_3d].

    The routines are imperative: they talk to pyplot's process-wide state
    (the active style sheet and the registry of open figures) and mutate
    the axes object they create.  They are embedded in a state-and-exception
    monad over a [World] that holds
      - the [_ParetoFrontInfo] object the caller passed (Python passes the
        object itself, so a write to it would be visible to the caller), and
      - pyplot's global state.
    Objective values are floats that the code only moves around; they are
    kept abstract ([Value]), as are trial objects ([Trial]). *)

From Stdlib Require Import DecimalString.
From Stdlib Require DecimalPos DecimalZ.
From stdpp Require Import base numbers list strings gmap.

Section ParetoFront.
Context {Trial Value : Type}.

(** ** Data model *)

(** The fields of [_ParetoFrontInfo] the renderer reads. *)
Record ParetoFrontInfo := {
  n_targets : Z;
  target_names : list string;
  axis_order : list Z;
  best_trials_with_values : option (list (Trial * list Value));
  non_best_trials_with_values : option (list (Trial * list Value));
}.

(** The exceptions the embedded code can raise. *)
Inductive Exception :=
  | ValueError (msg : string)
  | IndexError
  | TypeError.

Inductive Outcome (A : Type) :=
  | Returned (a : A)
  | Raised (e : Exception).
Global Arguments Returned {A} a.
Global Arguments Raised {A} e.

(** ** The drawing surface

    matplotlib is an opaque collaborator; what the renderer can observe
    or cause is recorded in an [Axes] record.  [cmap(i)] is kept symbolic:
    entry [i] of the named colour map. *)

Record Color := { cmap_name : string; cmap_index : Z }.

Inductive Projection := Rectilinear | Projection3d.

Definition n_axes (p : Projection) : nat :=
  match p with Rectilinear => 2 | Projection3d => 3 end.

(** One [ax.scatter] call: the coordinate lists as passed, the colour and
    the legend label. *)
Inductive Collection :=
  | Scatter2d (x y : list Value) (color : Color) (label : string)
  | Scatter3d (xs ys zs : list Value) (color : Color) (label : string).

Record Axes := {
  ax_projection : Projection;
  ax_style : string;
  ax_title : string;
  ax_xlabel : string;
  ax_ylabel : string;
  ax_zlabel : string;
  ax_collections : list Collection;
  ax_legend : bool;
}.

(** pyplot's process-wide state: the style sheet last applied and the
    open figures, by figure number, each with its axes.  Of the style only
    the name of the sheet last applied is recorded: the rcParams keys a
    sheet overlays, and those it leaves as they were, are not modelled. *)
Record Pyplot := {
  rc_style : string;
  figs : gmap nat (list Axes);
}.

Record World := {
  passed : ParetoFrontInfo;
  plt : Pyplot;
}.

(** An axes object is referred to by its figure's number and its position
    in the figure. *)
Definition Handle : Type := nat * nat.

Definition lookup_axes (h : Handle) (p : Pyplot) : option Axes :=
  figs p !! h.1 ≫= λ axs, axs !! h.2.

(** ** The monad *)

Definition M (A : Type) : Type := World → Outcome A * World.

#[global] Instance M_ret : MRet M := λ A a w, (Returned a, w).
#[global] Instance M_bind : MBind M := λ A B f m w,
  match m w with
  | (Returned a, w') => f a w'
  | (Raised e, w') => (Raised e, w')
  end.

Definition raise {A} (e : Exception) : M A := λ w, (Raised e, w).

(** [info.field] *)
Definition attr {A} (field : ParetoFrontInfo → A) : M A :=
  λ w, (Returned (field (passed w)), w).

(** ** Python primitives *)

(** [l[i]] on a Python sequence: a negative index counts from the end. *)
Definition py_index {A} (l : list A) (i : Z) : option A :=
  if bool_decide (0 ≤ i)%Z then l !! Z.to_nat i
  else if bool_decide (- Z.of_nat (length l) ≤ i)%Z
       then l !! Z.to_nat (Z.of_nat (length l) + i)
       else None.

Definition getitem {A} (l : list A) (i : Z) : M A :=
  match py_index l i with
  | Some x => mret x
  | None => raise IndexError
  end.

Definition len {A} (l : list A) : Z := Z.of_nat (length l).

(** [g is not None] *)
Definition is_not_none {A} (g : option A) : bool :=
  match g with Some _ => true | None => false end.

(** [g is not None and len(g) > 0], with [g] the attribute both operands
    read; [and] does not evaluate [len] on [None]. *)
Definition not_none_and_len_positive {A} (g : option (list A)) : bool :=
  match g with
  | None => false
  | Some l => bool_decide (len l > 0)%Z
  end.

(** [g is not None and len(g)]: the [if] tests the integer for truth. *)
Definition not_none_and_len_truthy {A} (g : option (list A)) : bool :=
  match g with
  | None => false
  | Some l => bool_decide (len l ≠ 0%Z)
  end.

(** Iterating [for ... in g]: [None] is not iterable. *)
Definition iter {A} (g : option (list A)) : M (list A) :=
  match g with
  | Some l => mret l
  | None => raise TypeError
  end.

(** [str(n)], as [format] renders an integer. *)
Definition str (n : Z) : string := NilZero.string_of_int (Z.to_int n).

(** [int(s)], on the decimal strings [str] produces. *)
Definition parse_count (s : string) : option Z :=
  Z.of_int <$> NilZero.int_of_string s.

(** ** matplotlib primitives *)

Definition with_plt (f : Pyplot → Pyplot) : M () :=
  λ w, (Returned (), {| passed := passed w; plt := f (plt w) |}).

(** [plt.style.use(name)]: [name] becomes the sheet last applied. *)
Definition plt_style_use (name : string) : M () :=
  with_plt (λ p, {| rc_style := name; figs := figs p |}).

(** pyplot numbers a new figure one past the largest open number,
    starting from 1. *)
Definition next_num (fs : gmap nat (list Axes)) : nat :=
  S (max_list (elements (dom fs))).

(** [plt.figure()] *)
Definition plt_figure : M nat :=
  λ w, let n := next_num (figs (plt w)) in
       (Returned n,
        {| passed := passed w;
           plt := {| rc_style := rc_style (plt w);
                     figs := <[n := []]> (figs (plt w)) |} |}).

Definition new_axes (proj : Projection) (style : string) : Axes :=
  {| ax_projection := proj; ax_style := style; ax_title := "";
     ax_xlabel := ""; ax_ylabel := ""; ax_zlabel := "";
     ax_collections := []; ax_legend := false |}.

(** [fig.add_subplot(projection=...)] *)
Definition fig_add_subplot (fig : nat) (proj : Projection) : M Handle :=
  λ w, let axs := default [] (figs (plt w) !! fig) in
       (Returned (fig, length axs),
        {| passed := passed w;
           plt := {| rc_style := rc_style (plt w);
                     figs := <[fig := axs ++ [new_axes proj (rc_style (plt w))]]>
                               (figs (plt w)) |} |}).

(** [plt.subplots()] *)
Definition plt_subplots : M (nat * Handle) :=
  fig ← plt_figure;
  ax ← fig_add_subplot fig Rectilinear;
  mret (fig, ax).

(** [plt.get_cmap(name)] *)
Definition plt_get_cmap (name : string) : Z → Color :=
  λ i, {| cmap_name := name; cmap_index := i |}.

(** A method call that mutates the axes object behind [h]. *)
Definition update_axes (h : Handle) (f : Axes → Axes) : M () :=
  with_plt (λ p, {| rc_style := rc_style p;
                    figs := alter (alter f h.2) h.1 (figs p) |}).

Definition set_title (s : string) (ax : Axes) : Axes :=
  {| ax_projection := ax_projection ax; ax_style := ax_style ax;
     ax_title := s;
     ax_xlabel := ax_xlabel ax; ax_ylabel := ax_ylabel ax;
     ax_zlabel := ax_zlabel ax;
     ax_collections := ax_collections ax; ax_legend := ax_legend ax |}.

Definition set_xlabel (s : string) (ax : Axes) : Axes :=
  {| ax_projection := ax_projection ax; ax_style := ax_style ax;
     ax_title := ax_title ax;
     ax_xlabel := s; ax_ylabel := ax_ylabel ax; ax_zlabel := ax_zlabel ax;
     ax_collections := ax_collections ax; ax_legend := ax_legend ax |}.

Definition set_ylabel (s : string) (ax : Axes) : Axes :=
  {| ax_projection := ax_projection ax; ax_style := ax_style ax;
     ax_title := ax_title ax;
     ax_xlabel := ax_xlabel ax; ax_ylabel := s; ax_zlabel := ax_zlabel ax;
     ax_collections := ax_collections ax; ax_legend := ax_legend ax |}.

Definition set_zlabel (s : string) (ax : Axes) : Axes :=
  {| ax_projection := ax_projection ax; ax_style := ax_style ax;
     ax_title := ax_title ax;
     ax_xlabel := ax_xlabel ax; ax_ylabel := ax_ylabel ax; ax_zlabel := s;
     ax_collections := ax_collections ax; ax_legend := ax_legend ax |}.

(** A scatter call adds its collection after those already there. *)
Definition add_collection (c : Collection) (ax : Axes) : Axes :=
  {| ax_projection := ax_projection ax; ax_style := ax_style ax;
     ax_title := ax_title ax;
     ax_xlabel := ax_xlabel ax; ax_ylabel := ax_ylabel ax;
     ax_zlabel := ax_zlabel ax;
     ax_collections := ax_collections ax ++ [c];
     ax_legend := ax_legend ax |}.

Definition set_legend (ax : Axes) : Axes :=
  {| ax_projection := ax_projection ax; ax_style := ax_style ax;
     ax_title := ax_title ax;
     ax_xlabel := ax_xlabel ax; ax_ylabel := ax_ylabel ax;
     ax_zlabel := ax_zlabel ax;
     ax_collections := ax_collections ax; ax_legend := true |}.

(** [Axes.has_data]: some artist (here: a scatter collection) was added. *)
Definition has_data (ax : Axes) : bool :=
  match ax_collections ax with [] => false | _ :: _ => true end.

Definition ax_has_data (h : Handle) : M bool :=
  λ w, (Returned (from_option has_data false (lookup_axes h (plt w))), w).

(** ** The renderer *)

(** [info.axis_order[i]] *)
Definition axis (i : Z) : M Z :=
  order ← attr axis_order;
  getitem order i.

(** [info.target_names[info.axis_order[i]]] *)
Definition axis_name (i : Z) : M string :=
  names ← attr target_names;
  k ← axis i;
  getitem names k.

(** [[values[info.axis_order[i]] for _, values in group]] *)
Definition coordinates (i : Z)
    (group : ParetoFrontInfo → option (list (Trial * list Value)))
    : M (list Value) :=
  g ← attr group;
  trials ← iter g;
  mapM (λ tv : Trial * list Value, k ← axis i; getitem tv.2 k) trials.

Definition _get_pareto_front_2d : M Handle :=
  plt_style_use "ggplot";;
  '(_, ax) ← plt_subplots;
  update_axes ax (set_title "Pareto-front Plot");;
  let cmap := plt_get_cmap "tab10" in
  (s ← axis_name 0; update_axes ax (set_xlabel s));;
  (s ← axis_name 1; update_axes ax (set_ylabel s));;
  (g ← attr non_best_trials_with_values;
   if not_none_and_len_positive g then
     x ← coordinates 0 non_best_trials_with_values;
     y ← coordinates 1 non_best_trials_with_values;
     update_axes ax (add_collection (Scatter2d x y (cmap 0%Z) "Trial"))
   else mret ());;
  (g ← attr best_trials_with_values;
   if not_none_and_len_positive g then
     x ← coordinates 0 best_trials_with_values;
     y ← coordinates 1 best_trials_with_values;
     update_axes ax (add_collection (Scatter2d x y (cmap 3%Z) "Best Trial"))
   else mret ());;
  (g ← attr non_best_trials_with_values;
   if is_not_none g then
     ax_has_data ax ≫= λ d : bool,
     if d then update_axes ax set_legend else mret ()
   else mret ());;
  mret ax.

Definition _get_pareto_front_3d : M Handle :=
  plt_style_use "ggplot";;
  fig ← plt_figure;
  ax ← fig_add_subplot fig Projection3d;
  update_axes ax (set_title "Pareto-front Plot");;
  let cmap := plt_get_cmap "tab10" in
  (s ← axis_name 0; update_axes ax (set_xlabel s));;
  (s ← axis_name 1; update_axes ax (set_ylabel s));;
  (s ← axis_name 2; update_axes ax (set_zlabel s));;
  (g ← attr non_best_trials_with_values;
   if not_none_and_len_positive g then
     xs ← coordinates 0 non_best_trials_with_values;
     ys ← coordinates 1 non_best_trials_with_values;
     zs ← coordinates 2 non_best_trials_with_values;
     update_axes ax (add_collection (Scatter3d xs ys zs (cmap 0%Z) "Trial"))
   else mret ());;
  (g ← attr best_trials_with_values;
   if not_none_and_len_truthy g then
     xs ← coordinates 0 best_trials_with_values;
     ys ← coordinates 1 best_trials_with_values;
     zs ← coordinates 2 best_trials_with_values;
     update_axes ax (add_collection (Scatter3d xs ys zs (cmap 3%Z) "Best Trial"))
   else mret ());;
  (g ← attr non_best_trials_with_values;
   if is_not_none g then
     ax_has_data ax ≫= λ d : bool,
     if d then update_axes ax set_legend else mret ()
   else mret ());;
  mret ax.

Definition unsupported_message (n : Z) : string :=
  "`plot_pareto_front` function only supports 2 or 3 targets."
  +:+ " you used " +:+ str n +:+ " targets now.".

(** The dispatch of [plot_pareto_front], from the point where the
    collaborator has produced [info]. *)
Definition plot_pareto_front : M Handle :=
  n ← attr n_targets;
  if bool_decide (n = 2%Z) then _get_pareto_front_2d
  else
    n ← attr n_targets;
    if bool_decide (n = 3%Z) then _get_pareto_front_3d
    else
      n ← attr n_targets;
      raise (ValueError (unsupported_message n)).

(** One render call: the caller hands over [info], pyplot is in state [p]. *)
Definition render (info : ParetoFrontInfo) (p : Pyplot) : Outcome Handle * World :=
  plot_pareto_front {| passed := info; plt := p |}.

(** What a caller observes of a call: the axes object behind the returned
    handle, or the exception raised. *)
Definition observe (r : Outcome Handle * World) : Exception + option Axes :=
  match r with
  | (Returned h, w) => inr (lookup_axes h (plt w))
  | (Raised e, _) => inl e
  end.

(** The drawing surface a call hands back, if it returned. *)
Definition surface (r : Outcome Handle * World) : option Axes :=
  match observe r with
  | inr ax => ax
  | inl _ => None
  end.

Definition rendered (info : ParetoFrontInfo) (p : Pyplot) : option Axes :=
  surface (render info p).

(** ** Reading the drawing *)

Definition coords (c : Collection) : list (list Value) :=
  match c with
  | Scatter2d x y _ _ => [x; y]
  | Scatter3d xs ys zs _ _ => [xs; ys; zs]
  end.

Definition color_of (c : Collection) : Color :=
  match c with
  | Scatter2d _ _ color _ => color
  | Scatter3d _ _ _ color _ => color
  end.

Definition label_of (c : Collection) : string :=
  match c with
  | Scatter2d _ _ _ label => label
  | Scatter3d _ _ _ _ label => label
  end.

(** The number of points of a scatter call: one per entry of its first
    coordinate list. *)
Definition n_points (c : Collection) : nat :=
  match c with
  | Scatter2d x _ _ _ => length x
  | Scatter3d xs _ _ _ _ => length xs
  end.

Definition points_drawn (ax : Axes) : nat :=
  sum_list (n_points <$> ax_collections ax).

(** The number of trials of a group; an absent group has none. *)
Definition group_size (g : option (list (Trial * list Value))) : nat :=
  length (default [] g).

(** The label of plotted axis [i], with [0], [1], [2] for x, y, z. *)
Definition axis_label (ax : Axes) (i : nat) : option string :=
  match i with
  | 0 => Some (ax_xlabel ax)
  | 1 => Some (ax_ylabel ax)
  | 2 => match ax_projection ax with
         | Projection3d => Some (ax_zlabel ax)
         | Rectilinear => None
         end
  | _ => None
  end.

(** ** The data contract *)

(** [axis_order] is a permutation of the raw dimension indices: as many
    entries as dimensions, each in range, none repeated. *)
Definition is_axis_permutation (n : Z) (order : list Z) : bool :=
  bool_decide (len order = n)
  && forallb (λ k, bool_decide (0 ≤ k < n)%Z) order
  && bool_decide (NoDup order).

Definition arity_ok (n : Z) (g : option (list (Trial * list Value))) : bool :=
  match g with
  | None => true
  | Some l => forallb (λ tv : Trial * list Value, bool_decide (len tv.2 = n)) l
  end.

Definition valid_info (info : ParetoFrontInfo) : bool :=
  bool_decide (len (target_names info) = n_targets info)
  && is_axis_permutation (n_targets info) (axis_order info)
  && arity_ok (n_targets info) (best_trials_with_values info)
  && arity_ok (n_targets info) (non_best_trials_with_values info).

(** ** Vocabulary for the statements *)

(** The projection on which [n] targets are drawn. *)
Definition projection_for (proj : Projection) (n : Z) : Prop :=
  n = Z.of_nat (n_axes proj).

(** [s] is [target_names[axis_order[i]]]. *)
Definition labelled (info : ParetoFrontInfo) (i : Z) (s : string) : Prop :=
  ∃ k, py_index (axis_order info) i = Some k
       ∧ py_index (target_names info) k = Some s.

(** [xs] lists [values[axis_order[i]]] for the trials of [l], in order. *)
Definition projected (info : ParetoFrontInfo) (i : Z)
    (l : list (Trial * list Value)) (xs : list Value) : Prop :=
  Forall2 (λ (tv : Trial * list Value) x,
             ∃ k, py_index (axis_order info) i = Some k
                  ∧ py_index tv.2 k = Some x) l xs.

(** [c] is the scatter of the trials [l] over [dims] axes. *)
Definition scatter_of (dims : nat) (info : ParetoFrontInfo)
    (l : list (Trial * list Value)) (color : Color) (label : string)
    (c : Collection) : Prop :=
  color_of c = color ∧ label_of c = label ∧ length (coords c) = dims
  ∧ ∀ (i : nat) xs, coords c !! i = Some xs → projected info (Z.of_nat i) l xs.

(** The collections a group leaves on the surface: one scatter when the
    group is present and non-empty, nothing otherwise. *)
Definition group_drawn (dims : nat) (info : ParetoFrontInfo)
    (g : option (list (Trial * list Value))) (color : Color) (label : string)
    (cs : list Collection) : Prop :=
  match g with
  | Some (t :: l) => ∃ c, cs = [c] ∧ scatter_of dims info (t :: l) color label c
  | _ => cs = []
  end.

(** What a finished drawing routine leaves on its axes object. *)
Definition drawn (proj : Projection) (info : ParetoFrontInfo) (ax : Axes) : Prop :=
  ax_projection ax = proj
  ∧ ax_style ax = "ggplot"
  ∧ ax_title ax = "Pareto-front Plot"
  ∧ (∀ i : nat, i < n_axes proj →
       ∃ s, axis_label ax i = Some s ∧ labelled info (Z.of_nat i) s)
  ∧ (∃ cs1 cs2,
       ax_collections ax = cs1 ++ cs2
       ∧ group_drawn (n_axes proj) info (non_best_trials_with_values info)
           (plt_get_cmap "tab10" 0%Z) "Trial" cs1
       ∧ group_drawn (n_axes proj) info (best_trials_with_values info)
           (plt_get_cmap "tab10" 3%Z) "Best Trial" cs2)
  ∧ ax_legend ax
    = is_not_none (non_best_trials_with_values info) && has_data ax.

(** Every subscript a routine over [dims] axes evaluates is in range. *)
Definition readable (dims : nat) (info : ParetoFrontInfo) : Prop :=
  (∀ i : nat, i < dims → ∃ s, labelled info (Z.of_nat i) s)
  ∧ (∀ group t l,
       group = non_best_trials_with_values ∨ group = best_trials_with_values →
       group info = Some (t :: l) →
       ∀ i : nat, i < dims → ∃ xs, projected info (Z.of_nat i) (t :: l) xs).

(** The part of a computation's result that depends on [info] alone, and
    the computations that are nothing more: they read the passed object
    and leave the world as it is. *)
Definition blank : Pyplot := {| rc_style := ""; figs := ∅ |}.

Definition eval {A} (m : M A) (info : ParetoFrontInfo) : Outcome A :=
  (m {| passed := info; plt := blank |}).1.

Class ReadOnly {A} (m : M A) : Prop :=
  read_only : ∀ w, m w = (eval m (passed w), w).

(** The computations that leave the passed object as it is, whatever
    they do to pyplot and whether they return or raise. *)
Class KeepsInfo {A} (m : M A) : Prop :=
  keeps_info : ∀ w, passed (m w).2 = passed w.

(** ** Variations of the data *)

(** [info] with another axis order. *)
Definition with_axis_order (order : list Z) (info : ParetoFrontInfo)
    : ParetoFrontInfo :=
  {| n_targets := n_targets info;
     target_names := target_names info;
     axis_order := order;
     best_trials_with_values := best_trials_with_values info;
     non_best_trials_with_values := non_best_trials_with_values info |}.

(** Plotted axes x and y exchanged, on positions and on collections. *)
Definition swap01 (i : nat) : nat :=
  match i with 0 => 1 | 1 => 0 | _ => i end.

Definition swap_xy (c : Collection) : Collection :=
  match c with
  | Scatter2d x y color label => Scatter2d y x color label
  | Scatter3d xs ys zs color label => Scatter3d ys xs zs color label
  end.

(** [info'] is [info] read through an axis order with its first two
    entries exchanged. *)
Definition swapped (info info' : ParetoFrontInfo) : Prop :=
  n_targets info' = n_targets info
  ∧ target_names info' = target_names info
  ∧ best_trials_with_values info' = best_trials_with_values info
  ∧ non_best_trials_with_values info' = non_best_trials_with_values info
  ∧ ∀ i : nat,
      py_index (axis_order info') (Z.of_nat (swap01 i))
      = py_index (axis_order info) (Z.of_nat i).

End ParetoFront.

(** * Renaming trials

    The same data with every trial object replaced by its image under [f];
    the objective values stay. *)

Section Retagging.
Context {Trial Trial' Value : Type} (f : Trial → Trial').

Definition retag_group (g : option (list (Trial * list Value)))
    : option (list (Trial' * list Value)) :=
  fmap (M := list) (prod_map f id) <$> g.

Definition retag (info : @ParetoFrontInfo Trial Value)
    : @ParetoFrontInfo Trial' Value :=
  {| n_targets := n_targets info;
     target_names := target_names info;
     axis_order := axis_order info;
     best_trials_with_values := retag_group (best_trials_with_values info);
     non_best_trials_with_values :=
       retag_group (non_best_trials_with_values info) |}.

Definition retag_world (w : @World Trial Value) : @World Trial' Value :=
  {| passed := retag (passed w); plt := plt w |}.

(** [m'], run on the renamed data, does what [m] does on the original:
    the same exception or results related by [R], from the same pyplot
    state to the same pyplot state. *)
Definition tracks {A' A} (R : A' → A → Prop)
    (m' : @M Trial' Value A') (m : @M Trial Value A) : Prop :=
  ∀ w,
    match m' (retag_world w), m w with
    | (Returned a', w1'), (Returned a, w1) => R a' a ∧ w1' = retag_world w1
    | (Raised e', w1'), (Raised e, w1) => e' = e ∧ w1' = retag_world w1
    | _, _ => False
    end.

(** The two group attributes, on the renamed data and on the original. *)
Inductive group_fields :
    (@ParetoFrontInfo Trial' Value → option (list (Trial' * list Value))) →
    (@ParetoFrontInfo Trial Value → option (list (Trial * list Value))) → Prop :=
  | non_best_fields :
      group_fields non_best_trials_with_values non_best_trials_with_values
  | best_fields :
      group_fields best_trials_with_values best_trials_with_values.

End Retagging.

(** * Sample data

    Trials are named by strings and objective values are integers standing
    for the floats of the same value. *)

Module Samples.

(** pyplot as a fresh interpreter has it: default style, no figure. *)
Definition fresh_pyplot : @Pyplot Z :=
  {| rc_style := "default"; figs := ∅ |}.

(** Two targets with the axes swapped, one trial in each group. *)
Definition swapped_2d : @ParetoFrontInfo string Z :=
  {| n_targets := 2;
     target_names := ["A"; "B"];
     axis_order := [1; 0]%Z;
     best_trials_with_values := Some [("t1", [1; 2]%Z)];
     non_best_trials_with_values := Some [("t2", [3; 4]%Z)] |}.

(** Three targets, two dominated trials and one best trial. *)
Definition rotated_3d : @ParetoFrontInfo string Z :=
  {| n_targets := 3;
     target_names := ["A"; "B"; "C"];
     axis_order := [2; 0; 1]%Z;
     best_trials_with_values := Some [("t1", [1; 2; 3]%Z)];
     non_best_trials_with_values :=
       Some [("t2", [4; 5; 6]%Z); ("t3", [7; 8; 9]%Z)] |}.

(** Dominated trials were not asked for. *)
Definition best_only : @ParetoFrontInfo string Z :=
  {| n_targets := 2;
     target_names := ["A"; "B"];
     axis_order := [0; 1]%Z;
     best_trials_with_values := Some [("t1", [1; 2]%Z); ("t2", [2; 1]%Z)];
     non_best_trials_with_values := None |}.

(** Dominated trials were asked for and there is none. *)
Definition none_dominated : @ParetoFrontInfo string Z :=
  {| n_targets := 3;
     target_names := ["A"; "B"; "C"];
     axis_order := [0; 1; 2]%Z;
     best_trials_with_values := Some [("t1", [1; 2; 3]%Z)];
     non_best_trials_with_values := Some [] |}.

(** Four targets: one too many for this view. *)
Definition four_targets : @ParetoFrontInfo string Z :=
  {| n_targets := 4;
     target_names := ["A"; "B"; "C"; "D"];
     axis_order := [0; 1; 2; 3]%Z;
     best_trials_with_values := Some [("t1", [1; 2; 3; 4]%Z)];
     non_best_trials_with_values := Some [] |}.

End Samples.

(** Data and pyplot states off the beaten track. *)

Module Oddities.

(** A value tuple shorter than the axis order asks for. *)
Definition short_tuple : @ParetoFrontInfo string Z :=
  {| n_targets := 2;
     target_names := ["A"; "B"];
     axis_order := [0; 1]%Z;
     best_trials_with_values := Some [("t1", [1]%Z)];
     non_best_trials_with_values := None |}.

(** No trial was found, and dominated ones were not asked for. *)
Definition nothing_found : @ParetoFrontInfo string Z :=
  {| n_targets := 3;
     target_names := ["A"; "B"; "C"];
     axis_order := [0; 1; 2]%Z;
     best_trials_with_values := Some [];
     non_best_trials_with_values := None |}.

(** pyplot with two figures open, numbered 1 and 4; the second has no
    axes yet. *)
Definition busy_pyplot : @Pyplot Z :=
  {| rc_style := "default";
     figs := {[ 1 := [new_axes Rectilinear "default"]; 4 := [] ]} |}.

End Oddities.

(** * Properties *)

Section Properties.
Context {Trial Value : Type}.
Implicit Types (info : @ParetoFrontInfo Trial Value).
Implicit Types (p : @Pyplot Value) (w : @World Trial Value).
Implicit Types (ax : @Axes Value) (c : @Collection Value).
Implicit Types (fs : gmap nat (list (@Axes Value))).
Implicit Types (l : list (Trial * list Value)).
#[local] Abbreviation M := (@M Trial Value).
#[local] Abbreviation PFI := (@ParetoFrontInfo Trial Value).

(** ** Runs of the monad *)

Lemma run_bind {A B} (m : M A) (f : A → M B) w :
  (m ≫= f) w =
  match m w with
  | (Returned a, w') => f a w'
  | (Raised e, w') => (Raised e, w')
  end.
Proof. reflexivity. Qed.

Lemma run_ret {A} (a : A) w : @mret M _ A a w = (Returned a, w).
Proof. reflexivity. Qed.

Lemma run_attr {A} (field : PFI → A) w :
  attr field w = (Returned (field (passed w)), w).
Proof. reflexivity. Qed.

#[local] Instance attr_read_only {A} (field : PFI → A) :
  ReadOnly (attr field).
Proof. intros w. reflexivity. Qed.

#[local] Instance ret_read_only {A} (a : A) : ReadOnly (mret a : M A).
Proof. intros w. reflexivity. Qed.

#[local] Instance raise_read_only {A} e : ReadOnly (raise e : M A).
Proof. intros w. reflexivity. Qed.

#[local] Instance getitem_read_only {A} (xs : list A) i :
  ReadOnly (getitem xs i : M A).
Proof. intros w. unfold eval, getitem. by destruct (py_index xs i). Qed.

#[local] Instance iter_read_only {A} (g : option (list A)) :
  ReadOnly (iter g : M (list A)).
Proof. intros w. unfold eval, iter. by destruct g. Qed.

Lemma eval_bind {A B} (m : M A) (f : A → M B) `{!ReadOnly m} info :
  eval (m ≫= f) info =
  match eval m info with
  | Returned a => eval (f a) info
  | Raised e => Raised e
  end.
Proof.
  unfold eval at 1. rewrite run_bind, (read_only (m:=m)). simpl.
  by destruct (eval m info).
Qed.

#[local] Instance bind_read_only {A B} (m : M A) (f : A → M B) :
  ReadOnly m → (∀ a, ReadOnly (f a)) → ReadOnly (m ≫= f).
Proof.
  intros Hm Hf w. rewrite eval_bind by done.
  rewrite run_bind, (read_only (m:=m)).
  destruct (eval m (passed w)) as [a|e]; [apply Hf | done].
Qed.

#[local] Instance mapM_read_only {A B} (f : A → M B) (xs : list A) :
  (∀ a, ReadOnly (f a)) → ReadOnly (mapM f xs).
Proof. intros Hf. induction xs as [|x xs IH]; simpl; apply _. Qed.

#[local] Instance axis_read_only i : ReadOnly (axis i : M Z).
Proof. unfold axis. apply _. Qed.

#[local] Instance axis_name_read_only i : ReadOnly (axis_name i : M string).
Proof. unfold axis_name. apply _. Qed.

#[local] Instance coordinates_read_only i group :
  ReadOnly (coordinates i group : M (list Value)).
Proof. unfold coordinates. apply _. Qed.

(** ** What the read-only parts compute *)

Lemma eval_axis i info :
  eval (axis i) info =
  match py_index (axis_order info) i with
  | Some k => Returned k
  | None => Raised IndexError
  end.
Proof.
  unfold axis. rewrite eval_bind by apply _. simpl.
  unfold eval, getitem. by destruct (py_index _ _).
Qed.

Lemma axis_name_returned i info s :
  eval (axis_name i) info = Returned s ↔ labelled info i s.
Proof.
  unfold axis_name, labelled.
  rewrite eval_bind by apply _. simpl.
  rewrite eval_bind, eval_axis by apply _.
  destruct (py_index (axis_order info) i) as [k|]; simpl.
  - unfold eval, getitem.
    destruct (py_index (target_names info) k) as [s'|] eqn:E; simpl.
    + split; [intros [= ->]; eauto | intros (k' & [= <-] & Hs); congruence].
    + split; [done | intros (k' & [= <-] & Hs); congruence].
  - split; [done | intros (k' & [=] & _)].
Qed.

Lemma mapM_returned {A B} (f : A → M B) (xs : list A) info ys :
  (∀ a, ReadOnly (f a)) →
  eval (mapM f xs) info = Returned ys
  ↔ Forall2 (λ x y, eval (f x) info = Returned y) xs ys.
Proof.
  intros Hf. revert ys. induction xs as [|x xs IH]; intros ys; simpl.
  - split; [intros [= <-]; constructor | by inversion 1].
  - rewrite eval_bind by apply _.
    destruct (eval (f x) info) as [y|e] eqn:Ey.
    + rewrite eval_bind by apply _.
      destruct (eval (mapM f xs) info) as [ys'|e] eqn:Eys.
      * split.
        -- intros [= <-]. constructor; [done | by apply IH].
        -- inversion 1 as [|? y' ? ys'' Hy Hys]; subst.
           apply IH in Hys. cbv [eval mret M_ret fst]. congruence.
      * split; [done |].
        inversion 1 as [|? y' ? ys'' Hy Hys]; subst.
        apply IH in Hys. congruence.
    + split; [done | inversion 1; congruence].
Qed.

Lemma coordinates_returned i group info xs :
  eval (coordinates i group) info = Returned xs
  ↔ ∃ l, group info = Some l ∧ projected info i l xs.
Proof.
  unfold coordinates, projected.
  rewrite eval_bind by apply _. simpl.
  destruct (group info) as [l|]; simpl.
  - rewrite eval_bind by apply _. simpl.
    rewrite mapM_returned by (intros; apply _).
    split.
    + intros H. exists l. split; [done |].
      eapply Forall2_impl; [exact H |]. intros tv x. simpl.
      rewrite eval_bind, eval_axis by apply _.
      destruct (py_index (axis_order info) i) as [k|]; [| done].
      unfold eval, getitem.
      destruct (py_index tv.2 k) as [x'|] eqn:E; simpl; [| done].
      intros [= ->]. eauto.
    + intros (l' & [= <-] & H).
      eapply Forall2_impl; [exact H |]. intros tv x (k & Hk & Hx). simpl.
      rewrite eval_bind, eval_axis, Hk by apply _.
      unfold eval, getitem. by rewrite Hx.
  - split; [done | by intros (l' & [=] & _)].
Qed.

Lemma projected_length info i l xs : projected info i l xs → length xs = length l.
Proof. intros H. symmetry. by eapply Forall2_length. Qed.

(** ** The guards *)

Lemma len_positive_shape {A} (g : option (list A)) :
  not_none_and_len_positive g = match g with Some (_ :: _) => true | _ => false end.
Proof.
  destruct g as [[|a xs]|]; [done | | done].
  apply bool_decide_eq_true_2. unfold len. simpl. lia.
Qed.

Lemma len_truthy_shape {A} (g : option (list A)) :
  not_none_and_len_truthy g = match g with Some (_ :: _) => true | _ => false end.
Proof.
  destruct g as [[|a xs]|]; [done | | done].
  apply bool_decide_eq_true_2. unfold len. simpl. lia.
Qed.

(** ** The figure registry *)

Lemma next_num_fresh fs : fs !! next_num fs = None.
Proof.
  destruct (fs !! next_num fs) as [axs|] eqn:E; [| done].
  assert (next_num fs ∈ elements (dom fs)) as Hin.
  { apply elem_of_elements, elem_of_dom. eauto. }
  apply max_list_elem_of_le in Hin. unfold next_num in Hin. lia.
Qed.

Lemma run_style_use name w :
  plt_style_use name w
  = (Returned (),
     {| passed := passed w;
        plt := {| rc_style := name; figs := figs (plt w) |} |}).
Proof. reflexivity. Qed.

Lemma run_figure info s fs :
  plt_figure {| passed := info; plt := {| rc_style := s; figs := fs |} |}
  = (Returned (next_num fs),
     {| passed := info;
        plt := {| rc_style := s; figs := <[next_num fs := []]> fs |} |}).
Proof. reflexivity. Qed.

Lemma run_add_subplot n proj info s fs :
  fig_add_subplot n proj
    {| passed := info; plt := {| rc_style := s; figs := <[n := []]> fs |} |}
  = (Returned (n, 0),
     {| passed := info;
        plt := {| rc_style := s; figs := <[n := [new_axes proj s]]> fs |} |}).
Proof.
  unfold fig_add_subplot. simpl.
  rewrite lookup_insert_eq, insert_insert_eq. reflexivity.
Qed.

Lemma run_subplots info s fs :
  plt_subplots {| passed := info; plt := {| rc_style := s; figs := fs |} |}
  = (Returned (next_num fs, (next_num fs, 0)),
     {| passed := info;
        plt := {| rc_style := s;
                  figs := <[next_num fs := [new_axes Rectilinear s]]> fs |} |}).
Proof.
  unfold plt_subplots.
  rewrite run_bind, run_figure, run_bind, run_add_subplot. reflexivity.
Qed.

Lemma run_update_axes n f info s fs ax :
  update_axes (n, 0) f
    {| passed := info; plt := {| rc_style := s; figs := <[n := [ax]]> fs |} |}
  = (Returned (),
     {| passed := info;
        plt := {| rc_style := s; figs := <[n := [f ax]]> fs |} |}).
Proof.
  unfold update_axes, with_plt. simpl.
  rewrite alter_insert_eq. reflexivity.
Qed.

Lemma run_has_data n info s fs ax :
  ax_has_data (n, 0)
    {| passed := info; plt := {| rc_style := s; figs := <[n := [ax]]> fs |} |}
  = (Returned (has_data ax),
     {| passed := info; plt := {| rc_style := s; figs := <[n := [ax]]> fs |} |}).
Proof.
  unfold ax_has_data, lookup_axes. simpl.
  rewrite lookup_insert_eq. reflexivity.
Qed.

(** ** Running the drawing routines

    The routines are run symbolically: the primitives are rewritten with
    their run lemmas, each read-only block is replaced by its [eval] and
    split on its outcome. *)

Ltac run_prims :=
  repeat (progress (rewrite ?run_bind, ?run_style_use, ?run_subplots,
                      ?run_figure, ?run_add_subplot, ?run_update_axes,
                      ?run_has_data, ?run_attr, ?run_ret;
                    cbv beta iota zeta;
                    cbn [passed plt figs rc_style fst snd])).

Ltac split_eval m info :=
  first [ match goal with H : eval m info = _ |- _ => rewrite H end
        | destruct (eval m info) eqn:? ];
  cbv beta iota.

Ltac run_read :=
  match goal with
  | |- context [@axis_name ?T ?V ?i {| passed := ?info; plt := ?p |}] =>
      rewrite (read_only (m := @axis_name T V i) {| passed := info; plt := p |});
      cbn [passed]; split_eval (@axis_name T V i) info
  | |- context [@coordinates ?T ?V ?i ?g {| passed := ?info; plt := ?p |}] =>
      rewrite (read_only (m := @coordinates T V i g)
                 {| passed := info; plt := p |});
      cbn [passed]; split_eval (@coordinates T V i g) info
  end.

Ltac run_data :=
  progress cbn [has_data add_collection set_legend ax_collections ax_legend
                ax_projection ax_style ax_title ax_xlabel ax_ylabel ax_zlabel
                set_xlabel set_ylabel set_zlabel set_title new_axes app].

Ltac run_routine Enb Eb :=
  repeat first
    [ progress run_prims
    | progress (rewrite ?Enb, ?Eb, ?len_positive_shape, ?len_truthy_shape;
                cbn [is_not_none]; cbv iota)
    | run_read
    | run_data ].

(** A subscript that raised contradicts [readable]. *)
Ltac unreadable Enb Eb :=
  let Hl := fresh "Hl" in
  let Hp := fresh "Hp" in
  intros [Hl Hp];
  match goal with
  | H : eval (axis_name ?i) _ = Raised _ |- _ =>
      let s := fresh "s" in
      let Hs := fresh "Hs" in
      destruct (Hl (Z.to_nat i)) as [s Hs]; [simpl; lia |];
      change (Z.of_nat (Z.to_nat i)) with i in Hs;
      apply axis_name_returned in Hs; congruence
  | H : eval (coordinates ?i ?g) ?info = Raised _ |- _ =>
      let xs := fresh "xs" in
      let Hxs := fresh "Hxs" in
      first [ destruct (Hp g _ _ ltac:(auto) Enb (Z.to_nat i)) as [xs Hxs]
            | destruct (Hp g _ _ ltac:(auto) Eb (Z.to_nat i)) as [xs Hxs] ];
      [simpl; lia |];
      change (Z.of_nat (Z.to_nat i)) with i in Hxs;
      assert (eval (coordinates i g) info = Returned xs)
        by (apply coordinates_returned; eauto);
      congruence
  end.

(** The scatter a successful run of the comprehensions adds. *)
Ltac scatter_ok E :=
  rewrite E; eexists; split; [reflexivity |];
  split_and!; [reflexivity | reflexivity | reflexivity |];
  let i := fresh "i" in
  let xs := fresh "xs" in
  let Hi := fresh "Hi" in
  intros i xs Hi;
  repeat (destruct i as [|i]; [injection Hi as <- |]); [.. | done];
  match goal with
  | H : eval (coordinates ?k _) _ = Returned ?ys |- projected _ ?k' _ ?ys =>
      change k' with k;
      apply coordinates_returned in H as (? & ? & ?); congruence
  end.

Ltac drawn_ok Enb Eb :=
  eexists; split_and!; [reflexivity | reflexivity |];
  unfold drawn; run_data; split_and!;
  [ reflexivity | reflexivity | reflexivity
  | let i := fresh "i" in
    intros i ?;
    repeat (destruct i as [|i];
            [eexists; split; [reflexivity | by apply axis_name_returned] |]);
    simpl in *; lia
  | ((exists [], []) + (eexists [_], []) + (eexists [], [_]) + (eexists [_], [_]));
    (split; [reflexivity |]); split;
    [ first [ by rewrite Enb | scatter_ok Enb ]
    | first [ by rewrite Eb | scatter_ok Eb ] ]
  | by rewrite Enb ].

Lemma get_2d_run info s fs :
  match _get_pareto_front_2d
          {| passed := info; plt := {| rc_style := s; figs := fs |} |} with
  | (Returned h, w') =>
      ∃ ax, h = (next_num fs, 0)
            ∧ w' = {| passed := info;
                      plt := {| rc_style := "ggplot";
                                figs := <[next_num fs := [ax]]> fs |} |}
            ∧ drawn Rectilinear info ax
  | (Raised e, _) => ¬ readable 2 info
  end.
Proof.
  unfold _get_pareto_front_2d.
  destruct (non_best_trials_with_values info) as [[|t1 l1]|] eqn:Enb,
           (best_trials_with_values info) as [[|t2 l2]|] eqn:Eb.
  all: run_routine Enb Eb.
  all: first [ unreadable Enb Eb | solve [drawn_ok Enb Eb] ].
Qed.

Lemma get_3d_run info s fs :
  match _get_pareto_front_3d
          {| passed := info; plt := {| rc_style := s; figs := fs |} |} with
  | (Returned h, w') =>
      ∃ ax, h = (next_num fs, 0)
            ∧ w' = {| passed := info;
                      plt := {| rc_style := "ggplot";
                                figs := <[next_num fs := [ax]]> fs |} |}
            ∧ drawn Projection3d info ax
  | (Raised e, _) => ¬ readable 3 info
  end.
Proof.
  unfold _get_pareto_front_3d.
  destruct (non_best_trials_with_values info) as [[|t1 l1]|] eqn:Enb,
           (best_trials_with_values info) as [[|t2 l2]|] eqn:Eb.
  all: run_routine Enb Eb.
  all: first [ unreadable Enb Eb | solve [drawn_ok Enb Eb] ].
Qed.

(** ** The dispatch *)

Lemma render_2d info p :
  n_targets info = 2%Z →
  render info p = _get_pareto_front_2d {| passed := info; plt := p |}.
Proof.
  intros Hn. unfold render, plot_pareto_front.
  rewrite run_bind, run_attr. simpl.
  by rewrite bool_decide_eq_true_2.
Qed.

Lemma render_3d info p :
  n_targets info = 3%Z →
  render info p = _get_pareto_front_3d {| passed := info; plt := p |}.
Proof.
  intros Hn. unfold render, plot_pareto_front.
  rewrite run_bind, run_attr. simpl.
  rewrite bool_decide_eq_false_2 by lia.
  rewrite run_bind, run_attr. simpl.
  by rewrite bool_decide_eq_true_2.
Qed.

Lemma render_unsupported info p :
  n_targets info ≠ 2%Z → n_targets info ≠ 3%Z →
  render info p
  = (Raised (ValueError (unsupported_message (n_targets info))),
     {| passed := info; plt := p |}).
Proof.
  intros H2 H3. unfold render, plot_pareto_front.
  rewrite run_bind, run_attr. simpl.
  rewrite bool_decide_eq_false_2 by done.
  rewrite run_bind, run_attr. simpl.
  rewrite bool_decide_eq_false_2 by done.
  reflexivity.
Qed.

Lemma lookup_axes_insert n ax s fs :
  lookup_axes (n, 0) {| rc_style := s; figs := <[n := [ax]]> fs |} = Some ax.
Proof. unfold lookup_axes. simpl. by rewrite lookup_insert_eq. Qed.

Lemma render_returned info p h w' :
  render info p = (Returned h, w') →
  ∃ proj ax,
    projection_for proj (n_targets info)
    ∧ h = (next_num (figs p), 0)
    ∧ w' = {| passed := info;
              plt := {| rc_style := "ggplot";
                        figs := <[next_num (figs p) := [ax]]> (figs p) |} |}
    ∧ drawn proj info ax.
Proof.
  intros Hr. destruct p as [s fs].
  destruct (decide (n_targets info = 2%Z)) as [H2|H2];
    [| destruct (decide (n_targets info = 3%Z)) as [H3|H3]].
  - rewrite render_2d in Hr by done.
    pose proof (get_2d_run info s fs) as Hrun. rewrite Hr in Hrun.
    destruct Hrun as (ax & ? & ? & ?). exists Rectilinear, ax. done.
  - rewrite render_3d in Hr by done.
    pose proof (get_3d_run info s fs) as Hrun. rewrite Hr in Hrun.
    destruct Hrun as (ax & ? & ? & ?). exists Projection3d, ax. done.
  - rewrite render_unsupported in Hr by done. discriminate.
Qed.

Lemma rendered_drawn info p ax :
  rendered info p = Some ax →
  ∃ proj, projection_for proj (n_targets info) ∧ drawn proj info ax.
Proof.
  unfold rendered, surface, observe.
  destruct (render info p) as [[h|e] w'] eqn:Hr; [| done].
  apply render_returned in Hr as (proj & ax' & Hproj & -> & -> & Hd).
  simpl. rewrite lookup_axes_insert. intros [= <-]. eauto.
Qed.

(** ** Well-formed data can be read *)

Lemma py_index_in_range {A} (xs : list A) (i : Z) :
  (0 ≤ i < len xs)%Z → ∃ x, py_index xs i = Some x ∧ x ∈ xs.
Proof.
  intros Hi. unfold py_index, len in *.
  rewrite bool_decide_eq_true_2 by lia.
  destruct (lookup_lt_is_Some_2 xs (Z.to_nat i)) as [x Hx]; [lia |].
  exists x. split; [done |]. by eapply list_elem_of_lookup_2.
Qed.

Lemma valid_labelled info (i : nat) :
  valid_info info = true → (Z.of_nat i < n_targets info)%Z →
  ∃ s, labelled info (Z.of_nat i) s.
Proof.
  unfold valid_info, is_axis_permutation.
  rewrite !andb_true_iff, !bool_decide_eq_true, forallb_forall.
  intros (((Hnames & (Hlen & Hrange) & _) & _) & _) Hi.
  destruct (py_index_in_range (axis_order info) (Z.of_nat i)) as (k & Hk & Hin);
    [lia |].
  apply list_elem_of_In, Hrange, bool_decide_eq_true in Hin.
  destruct (py_index_in_range (target_names info) k) as (s & Hs & _); [lia |].
  exists s, k. done.
Qed.

Lemma valid_projected info group (i : nat) l :
  valid_info info = true → (Z.of_nat i < n_targets info)%Z →
  group = non_best_trials_with_values ∨ group = best_trials_with_values →
  group info = Some l →
  ∃ xs, projected info (Z.of_nat i) l xs.
Proof.
  unfold valid_info, is_axis_permutation.
  rewrite !andb_true_iff, !bool_decide_eq_true, forallb_forall.
  intros (((Hnames & (Hlen & Hrange) & _) & Hbest) & Hnb) Hi Hgroup Hl.
  destruct (py_index_in_range (axis_order info) (Z.of_nat i)) as (k & Hk & Hin);
    [lia |].
  apply list_elem_of_In, Hrange, bool_decide_eq_true in Hin.
  assert (arity_ok (n_targets info) (group info) = true) as Harity
    by (by destruct Hgroup as [-> | ->]).
  rewrite Hl in Harity. simpl in Harity. rewrite forallb_forall in Harity.
  apply Forall_exists_Forall2_l, Forall_forall. intros tv Htv.
  apply list_elem_of_In, Harity, bool_decide_eq_true in Htv.
  destruct (py_index_in_range tv.2 k) as (x & Hx & _); [lia |].
  exists x, k. done.
Qed.

Lemma valid_readable info (dims : nat) :
  valid_info info = true → n_targets info = Z.of_nat dims → readable dims info.
Proof.
  intros Hv Hn. split.
  - intros i Hi. apply valid_labelled; [done | lia].
  - intros group t l Hgroup Hl i Hi.
    eapply valid_projected; [done | lia | done | done].
Qed.

Lemma rendered_valid info p :
  valid_info info = true →
  n_targets info = 2%Z ∨ n_targets info = 3%Z →
  ∃ ax, rendered info p = Some ax.
Proof.
  intros Hv Hn. destruct p as [s fs].
  unfold rendered, surface, observe. destruct Hn as [Hn|Hn].
  - rewrite render_2d by done.
    pose proof (get_2d_run info s fs) as Hrun.
    destruct (_get_pareto_front_2d _) as [[h|e] w'].
    + destruct Hrun as (ax & -> & -> & _). simpl.
      rewrite lookup_axes_insert. eauto.
    + destruct Hrun. by apply valid_readable.
  - rewrite render_3d by done.
    pose proof (get_3d_run info s fs) as Hrun.
    destruct (_get_pareto_front_3d _) as [[h|e] w'].
    + destruct Hrun as (ax & -> & -> & _). simpl.
      rewrite lookup_axes_insert. eauto.
    + destruct Hrun. by apply valid_readable.
Qed.

(** ** Consequences of [drawn] *)

Lemma n_axes_pos proj : 0 < n_axes proj.
Proof. destruct proj; simpl; lia. Qed.

Lemma projection_for_cases proj n :
  projection_for proj n →
  n = 2%Z ∧ proj = Rectilinear ∨ n = 3%Z ∧ proj = Projection3d.
Proof. unfold projection_for. destruct proj; simpl; intros ->; auto. Qed.

Lemma scatter_points dims info l color label c :
  0 < dims → scatter_of dims info l color label c → n_points c = length l.
Proof.
  intros Hd (_ & _ & _ & Hproj).
  destruct c; simpl in *; by eapply projected_length, (Hproj 0).
Qed.

Lemma group_drawn_points dims info g color label cs :
  0 < dims → group_drawn dims info g color label cs →
  sum_list (n_points <$> cs) = group_size g.
Proof.
  intros Hd. unfold group_drawn, group_size.
  destruct g as [[|t l]|]; [by intros -> | | by intros ->].
  intros (c & -> & Hc). simpl.
  erewrite scatter_points by done. simpl. lia.
Qed.

Lemma group_drawn_nil dims info g color label cs :
  group_drawn dims info g color label cs → cs = [] ↔ group_size g = 0.
Proof.
  unfold group_drawn, group_size.
  destruct g as [[|t l]|]; [by intros -> | | by intros ->].
  intros (c & -> & _). simpl. split; [done | lia].
Qed.

Lemma sum_list_app (xs ys : list nat) :
  sum_list (xs ++ ys) = sum_list xs + sum_list ys.
Proof. induction xs as [|x xs IH]; simpl; lia. Qed.

Lemma drawn_points proj info ax :
  drawn proj info ax →
  points_drawn ax
  = group_size (non_best_trials_with_values info)
    + group_size (best_trials_with_values info).
Proof.
  intros (_ & _ & _ & _ & (cs1 & cs2 & Hcs & H1 & H2) & _).
  unfold points_drawn. rewrite Hcs, fmap_app, sum_list_app.
  pose proof (n_axes_pos proj).
  by erewrite !group_drawn_points by done.
Qed.

Lemma drawn_has_data proj info ax :
  drawn proj info ax → has_data ax = true ↔ 0 < points_drawn ax.
Proof.
  intros Hd. rewrite (drawn_points _ _ _ Hd).
  destruct Hd as (_ & _ & _ & _ & (cs1 & cs2 & Hcs & H1 & H2) & _).
  apply group_drawn_nil in H1, H2. unfold has_data. rewrite Hcs.
  destruct cs1 as [|c1 cs1]; simpl.
  - destruct cs2 as [|c2 cs2].
    + split; [done |]. destruct H1 as [H1 _], H2 as [H2 _].
      rewrite H1, H2 by done. lia.
    + split; [intros _ | done].
      destruct (group_size (best_trials_with_values info)) eqn:E; [| lia].
      by destruct H2 as [_ H2]; specialize (H2 eq_refl).
  - split; [intros _ | done].
    destruct (group_size (non_best_trials_with_values info)) eqn:E; [| lia].
    by destruct H1 as [_ H1]; specialize (H1 eq_refl).
Qed.

Lemma drawn_non_best proj info ax t l :
  drawn proj info ax →
  non_best_trials_with_values info = Some (t :: l) →
  ∃ c rest,
    ax_collections ax = c :: rest
    ∧ scatter_of (n_axes proj) info (t :: l) (plt_get_cmap "tab10" 0%Z) "Trial" c
    ∧ group_drawn (n_axes proj) info (best_trials_with_values info)
        (plt_get_cmap "tab10" 3%Z) "Best Trial" rest.
Proof.
  intros (_ & _ & _ & _ & (cs1 & cs2 & Hcs & H1 & H2) & _) Hnb.
  rewrite Hnb in H1. destruct H1 as (c & -> & Hc).
  exists c, cs2. done.
Qed.

Lemma drawn_best proj info ax t l :
  drawn proj info ax →
  best_trials_with_values info = Some (t :: l) →
  ∃ front c,
    ax_collections ax = front ++ [c]
    ∧ scatter_of (n_axes proj) info (t :: l) (plt_get_cmap "tab10" 3%Z)
        "Best Trial" c
    ∧ group_drawn (n_axes proj) info (non_best_trials_with_values info)
        (plt_get_cmap "tab10" 0%Z) "Trial" front.
Proof.
  intros (_ & _ & _ & _ & (cs1 & cs2 & Hcs & H1 & H2) & _) Hb.
  rewrite Hb in H2. destruct H2 as (c & -> & Hc).
  exists cs1, c. done.
Qed.

(** ** The legend rule *)

(** C1. When [n_targets] is 2 or 3, the axes object a render hands back
    carries a legend exactly when [non_best_trials_with_values] is not
    [None] and at least one point was drawn; a render of well-formed data
    does hand back an axes object. *)
Theorem legend_attached_iff info p :
  n_targets info = 2%Z ∨ n_targets info = 3%Z →
  (valid_info info = true → ∃ ax, rendered info p = Some ax)
  ∧ ∀ ax, rendered info p = Some ax →
      (ax_legend ax = true
       ↔ non_best_trials_with_values info ≠ None ∧ 0 < points_drawn ax).
Proof.
  intros Hn. split; [intros Hv; by apply rendered_valid |].
  intros ax Hax. apply rendered_drawn in Hax as (proj & _ & Hd).
  rewrite <- (drawn_has_data _ _ _ Hd).
  destruct Hd as (_ & _ & _ & _ & _ & ->).
  rewrite andb_true_iff.
  destruct (non_best_trials_with_values info); simpl;
    (split; intros [? ?]; split; done).
Qed.

(** ** Unsupported dimensionality *)

(** ** Unsupported dimensionality *)

Lemma parse_count_str n : parse_count (str n) = Some n.
Proof.
  unfold parse_count, str. rewrite NilZero.isi.
  - simpl. by rewrite DecimalZ.of_to.
  - destruct n as [|q|q]; simpl; [done | | done].
    intros [= Hq]. by apply DecimalPos.Unsigned.to_uint_nonnil in Hq.
  - destruct n as [|q|q]; simpl; [done | done |].
    intros [= Hq]. by apply DecimalPos.Unsigned.to_uint_nonnil in Hq.
Qed.

(** C2. When [n_targets] is neither 2 nor 3, the render raises the
    unsupported-dimensionality [ValueError]; its message spells out
    [n_targets] in decimal; and the world is left exactly as it was: no
    figure was created and the style was not touched. *)
Theorem unsupported_dimensionality info p :
  n_targets info ≠ 2%Z → n_targets info ≠ 3%Z →
  render info p
  = (Raised (ValueError (unsupported_message (n_targets info))),
     {| passed := info; plt := p |})
  ∧ unsupported_message (n_targets info)
    = "`plot_pareto_front` function only supports 2 or 3 targets. you used "
      +:+ str (n_targets info) +:+ " targets now."
  ∧ parse_count (str (n_targets info)) = Some (n_targets info).
Proof.
  intros H2 H3. split_and!.
  - by apply render_unsupported.
  - reflexivity.
  - apply parse_count_str.
Qed.

(** ** Points, coordinates and labels *)

(** C3. For well-formed data with 2 (respectively 3) targets, the render
    hands back a surface with 2 (respectively 3) axes; each group that is
    present and non-empty is drawn as one scatter with as many points as
    the group has trials, whose coordinate list for axis [i] holds
    [values[axis_order[i]]] trial by trial; and nothing else is drawn. *)
Theorem points_and_coordinates info p (dims : nat) :
  valid_info info = true →
  dims = 2 ∨ dims = 3 →
  n_targets info = Z.of_nat dims →
  ∃ ax,
    rendered info p = Some ax
    ∧ n_axes (ax_projection ax) = dims
    ∧ (∀ t l, non_best_trials_with_values info = Some (t :: l) →
         ∃ c, c ∈ ax_collections ax
              ∧ label_of c = "Trial"
              ∧ n_points c = length (t :: l)
              ∧ length (coords c) = dims
              ∧ ∀ (i : nat) xs, coords c !! i = Some xs →
                  projected info (Z.of_nat i) (t :: l) xs)
    ∧ (∀ t l, best_trials_with_values info = Some (t :: l) →
         ∃ c, c ∈ ax_collections ax
              ∧ label_of c = "Best Trial"
              ∧ n_points c = length (t :: l)
              ∧ length (coords c) = dims
              ∧ ∀ (i : nat) xs, coords c !! i = Some xs →
                  projected info (Z.of_nat i) (t :: l) xs)
    ∧ points_drawn ax
      = group_size (non_best_trials_with_values info)
        + group_size (best_trials_with_values info).
Proof.
  intros Hv Hdims Hn.
  destruct (rendered_valid info p Hv) as [ax Hax]; [lia |].
  exists ax. split; [done |].
  apply rendered_drawn in Hax as (proj & Hproj & Hd).
  assert (n_axes proj = dims) as Hax by (unfold projection_for in Hproj; lia).
  pose proof (n_axes_pos proj) as Hpos.
  split_and!.
  - by destruct Hd as (-> & _).
  - intros t l Hnb.
    destruct (drawn_non_best _ _ _ _ _ Hd Hnb) as (c & rest & Hcs & Hc & _).
    exists c. rewrite Hcs, <- Hax.
    split; [apply list_elem_of_here |].
    pose proof (scatter_points _ _ _ _ _ _ Hpos Hc).
    by destruct Hc as (_ & ? & ? & ?).
  - intros t l Hb.
    destruct (drawn_best _ _ _ _ _ Hd Hb) as (front & c & Hcs & Hc & _).
    exists c. rewrite Hcs, <- Hax.
    split; [apply elem_of_app; right; apply list_elem_of_here |].
    pose proof (scatter_points _ _ _ _ _ _ Hpos Hc).
    by destruct Hc as (_ & ? & ? & ?).
  - by eapply drawn_points.
Qed.

(** C4. For well-formed data with 2 or 3 targets, every plotted axis [i]
    (x, y, and z in 3D) is labelled [target_names[axis_order[i]]]. *)
Theorem axis_labels info p :
  valid_info info = true →
  n_targets info = 2%Z ∨ n_targets info = 3%Z →
  ∃ ax,
    rendered info p = Some ax
    ∧ ∀ i : nat, (Z.of_nat i < n_targets info)%Z →
        ∃ k s,
          axis_label ax i = Some s
          ∧ py_index (axis_order info) (Z.of_nat i) = Some k
          ∧ py_index (target_names info) k = Some s.
Proof.
  intros Hv Hn.
  destruct (rendered_valid info p Hv Hn) as [ax Hax].
  exists ax. split; [done |].
  apply rendered_drawn in Hax as (proj & Hproj & Hd).
  destruct Hd as (_ & _ & _ & Hlabels & _).
  intros i Hi.
  destruct (Hlabels i) as (s & Hs & k & Hk & Hname).
  { unfold projection_for in Hproj. lia. }
  eauto.
Qed.

(** ** Edge cases of the legend rule *)

(** C5. For well-formed data with 2 or 3 targets: when the best group is
    present and non-empty and the non-best group is absent, the best
    points are drawn and no legend is attached; when the non-best group is
    present but empty and the best group is present and non-empty, the
    legend is attached although no dominated point was drawn. *)
Theorem legend_edge_cases info p t l :
  valid_info info = true →
  n_targets info = 2%Z ∨ n_targets info = 3%Z →
  best_trials_with_values info = Some (t :: l) →
  ∃ ax,
    rendered info p = Some ax
    ∧ (non_best_trials_with_values info = None →
         points_drawn ax = length (t :: l) ∧ ax_legend ax = false)
    ∧ (non_best_trials_with_values info = Some [] →
         ax_legend ax = true
         ∧ points_drawn ax = length (t :: l)
         ∧ ∀ c, c ∈ ax_collections ax → label_of c = "Best Trial").
Proof.
  intros Hv Hn Hb.
  destruct (rendered_valid info p Hv Hn) as [ax Hax].
  exists ax. split; [done |].
  apply rendered_drawn in Hax as (proj & Hproj & Hd).
  pose proof (drawn_points _ _ _ Hd) as Hpoints.
  pose proof (drawn_has_data _ _ _ Hd) as Hdata.
  destruct (drawn_best _ _ _ _ _ Hd Hb) as (front & c & Hcs & Hc & Hfront).
  destruct Hd as (_ & _ & _ & _ & _ & Hlegend).
  rewrite Hb in Hpoints. unfold group_size in Hpoints. simpl in Hpoints.
  split.
  - intros Hnb. rewrite Hnb in Hpoints, Hlegend. done.
  - intros Hnb. rewrite Hnb in Hpoints, Hlegend, Hfront.
    simpl in *. subst front. split_and!.
    + rewrite Hlegend. apply Hdata. lia.
    + done.
    + intros c' Hc'. rewrite Hcs in Hc'.
      apply list_elem_of_singleton in Hc' as ->. by destruct Hc as (_ & ? & _).
Qed.

(** ** Styling and drawing order *)

(** C8. For well-formed data with 2 or 3 targets, in whatever state pyplot
    is: the scatter of the non-best group has entry 0 of the tab10 palette
    as its colour and the scatter of the best group has entry 3; every
    collection on the surface has one of these two colours; and the two
    are different palette entries. *)
Theorem group_colors info p :
  valid_info info = true →
  n_targets info = 2%Z ∨ n_targets info = 3%Z →
  ∃ ax,
    rendered info p = Some ax
    ∧ (∀ t l, non_best_trials_with_values info = Some (t :: l) →
         ∃ c, c ∈ ax_collections ax ∧ label_of c = "Trial"
              ∧ n_points c = length (t :: l)
              ∧ color_of c = plt_get_cmap "tab10" 0%Z)
    ∧ (∀ t l, best_trials_with_values info = Some (t :: l) →
         ∃ c, c ∈ ax_collections ax ∧ label_of c = "Best Trial"
              ∧ n_points c = length (t :: l)
              ∧ color_of c = plt_get_cmap "tab10" 3%Z)
    ∧ (∀ c, c ∈ ax_collections ax →
         label_of c = "Trial" ∧ color_of c = plt_get_cmap "tab10" 0%Z
         ∨ label_of c = "Best Trial" ∧ color_of c = plt_get_cmap "tab10" 3%Z)
    ∧ plt_get_cmap "tab10" 0%Z ≠ plt_get_cmap "tab10" 3%Z.
Proof.
  intros Hv Hn.
  destruct (rendered_valid info p Hv Hn) as [ax Hax].
  exists ax. split; [done |].
  apply rendered_drawn in Hax as (proj & Hproj & Hd).
  pose proof (n_axes_pos proj) as Hpos.
  split_and!.
  - intros t l Hnb.
    destruct (drawn_non_best _ _ _ _ _ Hd Hnb) as (c & rest & Hcs & Hc & _).
    exists c. rewrite Hcs. split; [apply list_elem_of_here |].
    pose proof (scatter_points _ _ _ _ _ _ Hpos Hc).
    by destruct Hc as (? & ? & _).
  - intros t l Hb.
    destruct (drawn_best _ _ _ _ _ Hd Hb) as (front & c & Hcs & Hc & _).
    exists c. rewrite Hcs.
    split; [apply elem_of_app; right; apply list_elem_of_here |].
    pose proof (scatter_points _ _ _ _ _ _ Hpos Hc).
    by destruct Hc as (? & ? & _).
  - destruct Hd as (_ & _ & _ & _ & (cs1 & cs2 & -> & H1 & H2) & _).
    intros c [Hc|Hc]%elem_of_app; [left | right].
    + unfold group_drawn in H1.
      destruct (non_best_trials_with_values info) as [[|t l]|];
        [by subst; inversion Hc | | by subst; inversion Hc].
      destruct H1 as (c' & -> & ? & ? & _).
      by apply list_elem_of_singleton in Hc as ->.
    + unfold group_drawn in H2.
      destruct (best_trials_with_values info) as [[|t l]|];
        [by subst; inversion Hc | | by subst; inversion Hc].
      destruct H2 as (c' & -> & ? & ? & _).
      by apply list_elem_of_singleton in Hc as ->.
  - done.
Qed.

(** C9. In the 2D and the 3D routine alike, when both groups are present
    and non-empty the surface holds exactly two scatters, the non-best
    group's first and the best group's after it. *)
Theorem non_best_drawn_first info p t1 l1 t2 l2 :
  valid_info info = true →
  n_targets info = 2%Z ∨ n_targets info = 3%Z →
  non_best_trials_with_values info = Some (t1 :: l1) →
  best_trials_with_values info = Some (t2 :: l2) →
  ∃ ax c1 c2,
    rendered info p = Some ax
    ∧ ax_collections ax = [c1; c2]
    ∧ label_of c1 = "Trial" ∧ n_points c1 = length (t1 :: l1)
    ∧ (∀ (i : nat) xs, coords c1 !! i = Some xs →
         projected info (Z.of_nat i) (t1 :: l1) xs)
    ∧ label_of c2 = "Best Trial" ∧ n_points c2 = length (t2 :: l2)
    ∧ (∀ (i : nat) xs, coords c2 !! i = Some xs →
         projected info (Z.of_nat i) (t2 :: l2) xs).
Proof.
  intros Hv Hn Hnb Hb.
  destruct (rendered_valid info p Hv Hn) as [ax Hax].
  pose proof Hax as Hax'.
  apply rendered_drawn in Hax' as (proj & Hproj & Hd).
  pose proof (n_axes_pos proj) as Hpos.
  destruct (drawn_non_best _ _ _ _ _ Hd Hnb) as (c1 & rest & Hcs & Hc1 & Hrest).
  rewrite Hb in Hrest. destruct Hrest as (c2 & -> & Hc2).
  exists ax, c1, c2.
  pose proof (scatter_points _ _ _ _ _ _ Hpos Hc1).
  pose proof (scatter_points _ _ _ _ _ _ Hpos Hc2).
  destruct Hc1 as (_ & ? & _ & ?), Hc2 as (_ & ? & _ & ?).
  done.
Qed.

(** ** Independence of pyplot's state

    What is recorded of a drawing does not depend on the state it started
    from.  This is a fact about the record: it names the sheet last applied
    and is silent on the rcParams keys that sheet does not set. *)

Lemma get_2d_independent info p p' :
  observe (_get_pareto_front_2d {| passed := info; plt := p' |})
  = observe (_get_pareto_front_2d {| passed := info; plt := p |}).
Proof.
  destruct p as [s fs], p' as [s' fs']. unfold _get_pareto_front_2d.
  destruct (non_best_trials_with_values info) as [[|t1 l1]|] eqn:Enb,
           (best_trials_with_values info) as [[|t2 l2]|] eqn:Eb.
  all: run_routine Enb Eb.
  all: unfold observe; cbn [plt]; by rewrite ?lookup_axes_insert.
Qed.

Lemma get_3d_independent info p p' :
  observe (_get_pareto_front_3d {| passed := info; plt := p' |})
  = observe (_get_pareto_front_3d {| passed := info; plt := p |}).
Proof.
  destruct p as [s fs], p' as [s' fs']. unfold _get_pareto_front_3d.
  destruct (non_best_trials_with_values info) as [[|t1 l1]|] eqn:Enb,
           (best_trials_with_values info) as [[|t2 l2]|] eqn:Eb.
  all: run_routine Enb Eb.
  all: unfold observe; cbn [plt]; by rewrite ?lookup_axes_insert.
Qed.

Lemma render_independent info p p' :
  observe (render info p') = observe (render info p).
Proof.
  destruct (decide (n_targets info = 2%Z)) as [H2|H2];
    [| destruct (decide (n_targets info = 3%Z)) as [H3|H3]].
  - rewrite !render_2d by done. apply get_2d_independent.
  - rewrite !render_3d by done. apply get_3d_independent.
  - by rewrite !render_unsupported.
Qed.

(** C6. Rendering the same data a second time, in the state the first
    render left pyplot in, hands back an axes object equal to the first
    one (same collections, same labels, same legend) or raises the
    same exception; the second render leaves the first drawing as it was;
    and for well-formed data with 2 or 3 targets an axes object is handed
    back. *)
Theorem render_twice_identical info p :
  observe (render info (plt (render info p).2)) = observe (render info p)
  ∧ (∀ h, (render info p).1 = Returned h →
       lookup_axes h (plt (render info (plt (render info p).2)).2)
       = lookup_axes h (plt (render info p).2))
  ∧ (valid_info info = true →
     n_targets info = 2%Z ∨ n_targets info = 3%Z →
     ∃ ax, observe (render info p) = inr (Some ax)
           ∧ observe (render info (plt (render info p).2)) = inr (Some ax)).
Proof.
  split_and!.
  - apply render_independent.
  - intros h Hh.
    destruct (render info p) as [[h1|e1] w1] eqn:Hr1; [| done].
    injection Hh as ->.
    pose proof (render_independent info p (plt w1)) as Hobs.
    rewrite Hr1 in Hobs.
    apply render_returned in Hr1 as (proj & ax & _ & -> & -> & _).
    cbn [snd plt] in *.
    set (fs1 := <[next_num (figs p) := [ax]]> (figs p)) in *.
    destruct (render info {| rc_style := "ggplot"; figs := fs1 |})
      as [[h2|e2] w2] eqn:Hr2; [| done].
    apply render_returned in Hr2 as (proj2 & ax2 & _ & -> & -> & _).
    cbn [snd plt figs]. unfold lookup_axes. cbn [fst snd figs].
    rewrite lookup_insert_ne; [done |].
    intros Heq. pose proof (next_num_fresh fs1) as Hfresh.
    rewrite Heq in Hfresh. unfold fs1 in Hfresh at 1.
    by rewrite lookup_insert_eq in Hfresh.
  - intros Hv Hn.
    destruct (rendered_valid info p Hv Hn) as [ax Hax].
    exists ax. rewrite (render_independent info p (plt _)).
    unfold rendered, surface in Hax.
    destruct (observe (render info p)) as [e|[ax'|]]; naive_solver.
Qed.

(** ** What a render changes *)

#[local] Instance read_only_keeps {A} (m : M A) : ReadOnly m → KeepsInfo m.
Proof. intros Hm w. by rewrite (read_only (m:=m)). Qed.

#[local] Instance with_plt_keeps f : KeepsInfo (with_plt f : M ()).
Proof. intros w. reflexivity. Qed.

#[local] Instance style_use_keeps name : KeepsInfo (plt_style_use name : M ()).
Proof. intros w. reflexivity. Qed.

#[local] Instance update_axes_keeps h f : KeepsInfo (update_axes h f : M ()).
Proof. intros w. reflexivity. Qed.

#[local] Instance figure_keeps : KeepsInfo (plt_figure : M nat).
Proof. intros w. reflexivity. Qed.

#[local] Instance add_subplot_keeps fig proj :
  KeepsInfo (fig_add_subplot fig proj : M Handle).
Proof. intros w. reflexivity. Qed.

#[local] Instance has_data_keeps h : KeepsInfo (ax_has_data h : M bool).
Proof. intros w. reflexivity. Qed.

Lemma bind_keeps {A B} (m : M A) (f : A → M B) :
  KeepsInfo m → (∀ a, KeepsInfo (f a)) → KeepsInfo (m ≫= f).
Proof.
  intros Hm Hf w. rewrite run_bind. specialize (Hm w).
  destruct (m w) as [[a|e] w1]; simpl in *; [| done].
  by rewrite (Hf a w1).
Qed.

Ltac keeps :=
  repeat first
    [ apply bind_keeps; [| intros ?]
    | match goal with
      | |- KeepsInfo (if ?b then _ else _) => destruct b
      | |- KeepsInfo (let '(_, _) := ?x in _) => destruct x
      end
    | apply _ ].

Lemma subplots_keeps : KeepsInfo (plt_subplots : M (nat * Handle)).
Proof. unfold plt_subplots. keeps. Qed.

Lemma get_2d_keeps : KeepsInfo (_get_pareto_front_2d : M Handle).
Proof.
  unfold _get_pareto_front_2d.
  apply bind_keeps; [apply _ | intros _].
  apply bind_keeps; [apply subplots_keeps | intros [fig ax]].
  keeps.
Qed.

Lemma get_3d_keeps : KeepsInfo (_get_pareto_front_3d : M Handle).
Proof. unfold _get_pareto_front_3d. keeps. Qed.

Lemma plot_keeps : KeepsInfo (plot_pareto_front : M Handle).
Proof.
  unfold plot_pareto_front.
  repeat first
    [ apply get_2d_keeps | apply get_3d_keeps
    | apply bind_keeps; [apply _ | intros ?]
    | match goal with |- KeepsInfo (if ?b then _ else _) => destruct b end
    | apply _ ].
Qed.

(** C7, as the code has it. A render leaves the passed info object as it
    was, whether it returns or raises.  It is not a stateless transform:
    for well-formed data with 2 or 3 targets it applies the ggplot style
    sheet process-wide and registers one figure under a number that was
    free, so that every figure open before is left as it was. *)
Theorem render_effects info p :
  passed (render info p).2 = info
  ∧ (valid_info info = true →
     n_targets info = 2%Z ∨ n_targets info = 3%Z →
     ∃ ax,
       rendered info p = Some ax
       ∧ plt (render info p).2
         = {| rc_style := "ggplot";
              figs := <[next_num (figs p) := [ax]]> (figs p) |}
       ∧ figs p !! next_num (figs p) = None).
Proof.
  split.
  - apply (plot_keeps {| passed := info; plt := p |}).
  - intros Hv Hn.
    destruct (rendered_valid info p Hv Hn) as [ax Hax].
    exists ax. split; [done |]. split; [| apply next_num_fresh].
    unfold rendered, surface, observe in Hax.
    destruct (render info p) as [[h|e] w'] eqn:Hr; [| done].
    apply render_returned in Hr as (proj & ax' & _ & -> & -> & _).
    cbn [snd plt] in *. rewrite lookup_axes_insert in Hax.
    by injection Hax as ->.
Qed.

(** ** The two routines draw the same groups *)

Lemma surface_2d info p ax :
  surface (_get_pareto_front_2d {| passed := info; plt := p |}) = Some ax →
  drawn Rectilinear info ax.
Proof.
  destruct p as [s fs]. pose proof (get_2d_run info s fs) as Hrun.
  unfold surface, observe.
  destruct (_get_pareto_front_2d _) as [[h|e] w']; [| done].
  destruct Hrun as (ax' & -> & -> & Hd). cbn [plt].
  rewrite lookup_axes_insert. by intros [= <-].
Qed.

Lemma surface_3d info p ax :
  surface (_get_pareto_front_3d {| passed := info; plt := p |}) = Some ax →
  drawn Projection3d info ax.
Proof.
  destruct p as [s fs]. pose proof (get_3d_run info s fs) as Hrun.
  unfold surface, observe.
  destruct (_get_pareto_front_3d _) as [[h|e] w']; [| done].
  destruct Hrun as (ax' & -> & -> & Hd). cbn [plt].
  rewrite lookup_axes_insert. by intros [= <-].
Qed.

Lemma group_drawn_shape dims info g color label cs :
  0 < dims → group_drawn dims info g color label cs →
  label_of <$> cs = (if not_none_and_len_positive g then [label] else [])
  ∧ n_points <$> cs
    = (if not_none_and_len_positive g then [group_size g] else []).
Proof.
  intros Hd. rewrite len_positive_shape. unfold group_drawn, group_size.
  destruct g as [[|t l]|]; [by intros -> | | by intros ->].
  intros (c & -> & Hc). simpl.
  erewrite scatter_points by done. by destruct Hc as (_ & -> & _).
Qed.

Lemma drawn_shape proj info ax :
  drawn proj info ax →
  label_of <$> ax_collections ax
  = (if not_none_and_len_positive (non_best_trials_with_values info)
     then ["Trial"] else [])
    ++ (if not_none_and_len_positive (best_trials_with_values info)
        then ["Best Trial"] else [])
  ∧ n_points <$> ax_collections ax
    = (if not_none_and_len_positive (non_best_trials_with_values info)
       then [group_size (non_best_trials_with_values info)] else [])
      ++ (if not_none_and_len_positive (best_trials_with_values info)
          then [group_size (best_trials_with_values info)] else []).
Proof.
  intros (_ & _ & _ & _ & (cs1 & cs2 & -> & H1 & H2) & _).
  pose proof (n_axes_pos proj) as Hpos. rewrite !fmap_app.
  apply group_drawn_shape in H1 as [-> ->]; [| done].
  by apply group_drawn_shape in H2 as [-> ->].
Qed.

(** C10. The guard [g is not None and len(g)] of the 3D routine and the
    guard [g is not None and len(g) > 0] used everywhere else take the
    same value on every group, true exactly when the group is a sequence
    of positive length; and on any data on which both routines return,
    they have drawn the same groups with the same numbers of points. *)
Theorem drawing_guards_agree info p p' :
  (∀ g : option (list (Trial * list Value)),
     not_none_and_len_truthy g = not_none_and_len_positive g
     ∧ (not_none_and_len_positive g = true
        ↔ ∃ l, g = Some l ∧ 0 < length l))
  ∧ ∀ ax2 ax3,
      surface (_get_pareto_front_2d {| passed := info; plt := p |}) = Some ax2 →
      surface (_get_pareto_front_3d {| passed := info; plt := p' |}) = Some ax3 →
      label_of <$> ax_collections ax2 = label_of <$> ax_collections ax3
      ∧ n_points <$> ax_collections ax2 = n_points <$> ax_collections ax3.
Proof.
  split.
  - intros g. rewrite len_truthy_shape, len_positive_shape. split; [done |].
    destruct g as [[|t l]|]; simpl.
    + split; [done | intros (l & [= <-] & Hl); simpl in Hl; lia].
    + split; [intros _; eexists; split; [done | simpl; lia] | done].
    + split; [done | by intros (l & [=] & _)].
  - intros ax2 ax3 H2 H3.
    apply surface_2d, drawn_shape in H2 as [-> ->].
    apply surface_3d, drawn_shape in H3 as [-> ->].
    done.
Qed.

(** * Further properties of the renderer *)

(** ** Failing subscripts *)

Lemma axis_name_raised i info e :
  eval (axis_name i) info = Raised e → e = IndexError.
Proof.
  unfold axis_name. rewrite eval_bind by apply _. simpl.
  rewrite eval_bind, eval_axis by apply _.
  destruct (py_index (axis_order info) i) as [k|]; simpl; [| congruence].
  unfold eval, getitem.
  destruct (py_index (target_names info) k); simpl; congruence.
Qed.

Lemma mapM_raised {A B} (f : A → M B) (xs : list A) info e :
  (∀ a, ReadOnly (f a)) →
  eval (mapM f xs) info = Raised e →
  ∃ x, x ∈ xs ∧ eval (f x) info = Raised e.
Proof.
  intros Hf. induction xs as [|x xs IH]; simpl; [done |].
  rewrite eval_bind by apply _.
  destruct (eval (f x) info) as [y|e'] eqn:Ey.
  - rewrite eval_bind by apply _.
    destruct (eval (mapM f xs) info) as [ys|e'] eqn:Eys; [done |].
    intros [= ->]. destruct IH as (x' & Hin & Hx'); [done |].
    exists x'. split; [by apply list_elem_of_further | done].
  - intros [= ->]. exists x. split; [apply list_elem_of_here | done].
Qed.

Lemma coordinates_raised i group info l e :
  group info = Some l →
  eval (coordinates i group) info = Raised e → e = IndexError.
Proof.
  intros Hl. unfold coordinates.
  rewrite eval_bind by apply _. simpl. rewrite Hl. simpl.
  rewrite eval_bind by apply _. simpl.
  intros (tv & _ & Htv)%mapM_raised; [| intros; apply _].
  rewrite eval_bind, eval_axis in Htv by apply _.
  destruct (py_index (axis_order info) i) as [k|]; [| congruence].
  unfold eval, getitem in Htv.
  destruct (py_index tv.2 k); simpl in Htv; congruence.
Qed.

Ltac index_error Enb Eb :=
  match goal with
  | H : eval (axis_name _) _ = Raised ?e |- ?e = IndexError =>
      exact (axis_name_raised _ _ _ H)
  | H : eval (coordinates _ _) _ = Raised ?e |- ?e = IndexError =>
      first [ exact (coordinates_raised _ _ _ _ _ Enb H)
            | exact (coordinates_raised _ _ _ _ _ Eb H) ]
  end.

Ltac world_ok Enb Eb :=
  cbn [fst snd]; eexists; split; [reflexivity |];
  run_data; split_and!; [reflexivity | reflexivity | reflexivity |];
  let e := fresh "e" in
  intros e; first [ discriminate | intros [= <-]; split; [index_error Enb Eb | reflexivity] ].

Lemma get_2d_world info s fs :
  ∃ ax,
    (_get_pareto_front_2d
       {| passed := info; plt := {| rc_style := s; figs := fs |} |}).2
    = {| passed := info;
         plt := {| rc_style := "ggplot";
                   figs := <[next_num fs := [ax]]> fs |} |}
    ∧ ax_projection ax = Rectilinear
    ∧ ax_style ax = "ggplot"
    ∧ ax_title ax = "Pareto-front Plot"
    ∧ ∀ e, (_get_pareto_front_2d
              {| passed := info; plt := {| rc_style := s; figs := fs |} |}).1
           = Raised e →
           e = IndexError ∧ ax_legend ax = false.
Proof.
  unfold _get_pareto_front_2d.
  destruct (non_best_trials_with_values info) as [[|t1 l1]|] eqn:Enb,
           (best_trials_with_values info) as [[|t2 l2]|] eqn:Eb.
  all: run_routine Enb Eb.
  all: solve [world_ok Enb Eb].
Qed.

Lemma get_3d_world info s fs :
  ∃ ax,
    (_get_pareto_front_3d
       {| passed := info; plt := {| rc_style := s; figs := fs |} |}).2
    = {| passed := info;
         plt := {| rc_style := "ggplot";
                   figs := <[next_num fs := [ax]]> fs |} |}
    ∧ ax_projection ax = Projection3d
    ∧ ax_style ax = "ggplot"
    ∧ ax_title ax = "Pareto-front Plot"
    ∧ ∀ e, (_get_pareto_front_3d
              {| passed := info; plt := {| rc_style := s; figs := fs |} |}).1
           = Raised e →
           e = IndexError ∧ ax_legend ax = false.
Proof.
  unfold _get_pareto_front_3d.
  destruct (non_best_trials_with_values info) as [[|t1 l1]|] eqn:Enb,
           (best_trials_with_values info) as [[|t2 l2]|] eqn:Eb.
  all: run_routine Enb Eb.
  all: solve [world_ok Enb Eb].
Qed.

Lemma render_world info p :
  n_targets info = 2%Z ∨ n_targets info = 3%Z →
  ∃ ax,
    (render info p).2
    = {| passed := info;
         plt := {| rc_style := "ggplot";
                   figs := <[next_num (figs p) := [ax]]> (figs p) |} |}
    ∧ Z.of_nat (n_axes (ax_projection ax)) = n_targets info
    ∧ ax_style ax = "ggplot"
    ∧ ax_title ax = "Pareto-front Plot"
    ∧ ∀ e, (render info p).1 = Raised e → e = IndexError ∧ ax_legend ax = false.
Proof.
  destruct p as [s fs]. intros [Hn|Hn].
  - rewrite render_2d by done.
    destruct (get_2d_world info s fs) as (ax & ? & Hproj & ? & ? & ?).
    exists ax. rewrite Hproj, Hn. done.
  - rewrite render_3d by done.
    destruct (get_3d_world info s fs) as (ax & ? & Hproj & ? & ? & ?).
    exists ax. rewrite Hproj, Hn. done.
Qed.

Lemma drawn_readable proj info ax :
  drawn proj info ax → readable (n_axes proj) info.
Proof.
  intros (_ & _ & _ & Hlabels & (cs1 & cs2 & _ & H1 & H2) & _). split.
  - intros i Hi. destruct (Hlabels i Hi) as (s & _ & Hs). eauto.
  - intros group t l Hgroup Hg i Hi.
    assert (∃ c, scatter_of (n_axes proj) info (t :: l)
                   (color_of c) (label_of c) c) as (c & _ & _ & Hlen & Hproj).
    { destruct Hgroup as [-> | ->].
      - rewrite Hg in H1. destruct H1 as (c & _ & ? & ? & ? & ?).
        exists c. done.
      - rewrite Hg in H2. destruct H2 as (c & _ & ? & ? & ? & ?).
        exists c. done. }
    destruct (lookup_lt_is_Some_2 (coords c) i) as [xs Hxs]; [lia |].
    exists xs. eauto.
Qed.

Lemma render_raised_unreadable info p e w (dims : nat) :
  dims = 2 ∨ dims = 3 →
  n_targets info = Z.of_nat dims →
  render info p = (Raised e, w) → ¬ readable dims info.
Proof.
  intros Hdims Hn Hr. destruct p as [s fs]. destruct Hdims as [-> | ->].
  - pose proof (get_2d_run info s fs) as Hrun.
    rewrite render_2d in Hr by done. by rewrite Hr in Hrun.
  - pose proof (get_3d_run info s fs) as Hrun.
    rewrite render_3d in Hr by done. by rewrite Hr in Hrun.
Qed.

Lemma rendered_iff_readable info p (dims : nat) :
  dims = 2 ∨ dims = 3 →
  n_targets info = Z.of_nat dims →
  readable dims info ↔ ∃ ax, rendered info p = Some ax.
Proof.
  intros Hdims Hn. split.
  - intros Hread. unfold rendered, surface, observe.
    destruct (render info p) as [[h|e] w] eqn:Hr.
    + apply render_returned in Hr as (proj & ax & _ & -> & -> & _).
      cbn [plt]. rewrite lookup_axes_insert. eauto.
    + by destruct (render_raised_unreadable _ _ _ _ _ Hdims Hn Hr).
  - intros (ax & (proj & Hproj & Hd)%rendered_drawn).
    apply drawn_readable in Hd. unfold projection_for in Hproj.
    by replace dims with (n_axes proj) by lia.
Qed.

(** X1. With 2 or 3 targets a render hands back a surface exactly when
    every subscript the routine evaluates is in range, whatever else is
    wrong with the data; when one is not, the render raises [IndexError]
    and no other exception. *)
Theorem render_returns_iff_readable info p (dims : nat) :
  dims = 2 ∨ dims = 3 →
  n_targets info = Z.of_nat dims →
  (readable dims info ↔ ∃ ax, rendered info p = Some ax)
  ∧ (¬ readable dims info ↔ ∃ w, render info p = (Raised IndexError, w)).
Proof.
  intros Hdims Hn. split; [by apply rendered_iff_readable |]. split.
  - intros Hnot.
    assert (n_targets info = 2%Z ∨ n_targets info = 3%Z) as Hn' by lia.
    destruct (render_world info p Hn') as (ax0 & _ & _ & _ & _ & Herr).
    destruct (render info p) as [[h|e] w] eqn:Hr.
    + destruct Hnot. apply (rendered_iff_readable info p dims Hdims Hn).
      unfold rendered, surface, observe. rewrite Hr.
      apply render_returned in Hr as (proj & ax & _ & -> & -> & _).
      cbn [plt]. rewrite lookup_axes_insert. eauto.
    + destruct (Herr e eq_refl) as [-> _]. eauto.
  - intros (w & Hr). by eapply render_raised_unreadable.
Qed.

(** X2. With 2 or 3 targets a render registers its figure and switches the
    style before it reads any data: when it then raises, the exception is
    [IndexError], and the new figure, titled and without a legend, is left
    registered under a number that was free, with the ggplot style in
    force. *)
Theorem failed_render_leaves_figure info p e :
  n_targets info = 2%Z ∨ n_targets info = 3%Z →
  (render info p).1 = Raised e →
  e = IndexError
  ∧ figs p !! next_num (figs p) = None
  ∧ ∃ ax,
      plt (render info p).2
      = {| rc_style := "ggplot";
           figs := <[next_num (figs p) := [ax]]> (figs p) |}
      ∧ Z.of_nat (n_axes (ax_projection ax)) = n_targets info
      ∧ ax_title ax = "Pareto-front Plot"
      ∧ ax_legend ax = false.
Proof.
  intros Hn He.
  destruct (render_world info p Hn) as (ax & Hw & Hproj & _ & Htitle & Herr).
  destruct (Herr e He) as [-> Hlegend].
  split; [done |]. split; [apply next_num_fresh |].
  exists ax. by rewrite Hw.
Qed.

(** X3. Whatever the data and whether the render returns or raises, every
    figure that was open before the call is still registered afterwards,
    with its axes as they were. *)
Theorem open_figures_untouched info p (k : nat) axs :
  figs p !! k = Some axs →
  figs (plt (render info p).2) !! k = Some axs.
Proof.
  intros Hk.
  destruct (decide (n_targets info = 2%Z ∨ n_targets info = 3%Z)) as [Hn|Hn].
  - destruct (render_world info p Hn) as (ax & -> & _). cbn [plt figs].
    rewrite lookup_insert_ne; [done |].
    intros <-. by rewrite next_num_fresh in Hk.
  - rewrite render_unsupported by tauto. done.
Qed.
(** X4. On every surface a render hands back there are at most two
    collections, with different labels; each has one coordinate list per
    axis, all of the same length, and that length is not zero: an empty
    scatter is never added. *)
Theorem collections_well_formed info p ax :
  rendered info p = Some ax →
  length (ax_collections ax) ≤ 2
  ∧ NoDup (label_of <$> ax_collections ax)
  ∧ ∀ c, c ∈ ax_collections ax →
      length (coords c) = n_axes (ax_projection ax)
      ∧ 0 < n_points c
      ∧ ∀ xs, xs ∈ coords c → length xs = n_points c.
Proof.
  intros (proj & _ & Hd)%rendered_drawn.
  pose proof (drawn_shape _ _ _ Hd) as [Hlabels _].
  pose proof (n_axes_pos proj) as Hpos.
  destruct Hd as (-> & _ & _ & _ & (cs1 & cs2 & Hcs & H1 & H2) & _).
  split_and!.
  - rewrite <- (length_fmap label_of), Hlabels.
    repeat case_match; simpl; lia.
  - rewrite Hlabels.
    repeat case_match; simpl;
      repeat (constructor;
              [first [by intros [=]%list_elem_of_singleton | by inversion 1] |]);
      constructor.
  - assert (∀ g color label cs c,
              group_drawn (n_axes proj) info g color label cs → c ∈ cs →
              ∃ t l, scatter_of (n_axes proj) info (t :: l) color label c)
      as Hscatter.
    { intros g color label cs c Hg Hc. unfold group_drawn in Hg.
      destruct g as [[|t l]|]; [by subst; inversion Hc | | by subst; inversion Hc].
      destruct Hg as (c' & -> & Hc'). apply list_elem_of_singleton in Hc as ->.
      eauto. }
    intros c Hc. rewrite Hcs in Hc.
    assert (∃ color label t l,
              scatter_of (n_axes proj) info (t :: l) color label c)
      as (color & label & t & l & Hsc).
    { apply elem_of_app in Hc as [Hc|Hc].
      - destruct (Hscatter _ _ _ _ _ H1 Hc) as (t & l & ?). eauto.
      - destruct (Hscatter _ _ _ _ _ H2 Hc) as (t & l & ?). eauto. }
    pose proof (scatter_points _ _ _ _ _ _ Hpos Hsc) as Hpoints.
    destruct Hsc as (_ & _ & Hlen & Hproj).
    split_and!; [done | rewrite Hpoints; simpl; lia |].
    intros xs (i & Hi)%list_elem_of_lookup.
    rewrite Hpoints. by eapply projected_length, Hproj.
Qed.

(** X5. For well-formed data with 2 or 3 targets in which neither group
    holds a trial (each is absent or empty), the render hands back a titled
    surface with nothing drawn on it and no legend. *)
Theorem empty_plot info p :
  valid_info info = true →
  n_targets info = 2%Z ∨ n_targets info = 3%Z →
  group_size (non_best_trials_with_values info) = 0 →
  group_size (best_trials_with_values info) = 0 →
  ∃ ax,
    rendered info p = Some ax
    ∧ ax_collections ax = []
    ∧ ax_legend ax = false
    ∧ ax_title ax = "Pareto-front Plot"
    ∧ Z.of_nat (n_axes (ax_projection ax)) = n_targets info.
Proof.
  intros Hv Hn Hnb Hb.
  destruct (rendered_valid info p Hv Hn) as [ax Hax].
  exists ax. split; [done |].
  apply rendered_drawn in Hax as (proj & Hproj & Hd).
  destruct Hd as (-> & _ & -> & _ & (cs1 & cs2 & Hcs & H1 & H2) & Hlegend).
  apply group_drawn_nil in H1, H2.
  rewrite (proj2 H1 Hnb), (proj2 H2 Hb) in Hcs. simpl in Hcs. unfold has_data in Hlegend. rewrite Hcs in Hlegend.
  rewrite andb_false_r in Hlegend. done.
Qed.

(** ** The error message *)

Lemma length_append (s t : string) :
  String.length (s +:+ t) = String.length s + String.length t.
Proof. induction s as [|a s IH]; simpl; [done | by rewrite IH]. Qed.

Lemma append_cancel_r (s1 s2 t : string) :
  s1 +:+ t = s2 +:+ t → s1 = s2.
Proof.
  intros H.
  assert (String.length s1 = String.length s2) as Hlen.
  { apply (f_equal String.length) in H.
    rewrite !length_append in H. lia. }
  revert s2 H Hlen. induction s1 as [|a s1 IH]; intros [|b s2] H Hlen;
    simpl in *; try done.
  injection H as -> H. f_equal. apply IH; [done | lia].
Qed.

Lemma str_inj n m : str n = str m → n = m.
Proof.
  intros H. apply (f_equal parse_count) in H.
  rewrite !parse_count_str in H. congruence.
Qed.

(** X6. The message of the unsupported-dimensionality error identifies the
    count: two counts with the same message are the same count. *)
Theorem unsupported_message_inj n m :
  unsupported_message n = unsupported_message m → n = m.
Proof.
  unfold unsupported_message. intros H.
  do 2 apply (inj (String.append _)) in H.
  apply append_cancel_r in H. by apply str_inj.
Qed.

(** ** Exchanging two axes *)

Lemma swap01_involutive i : swap01 (swap01 i) = i.
Proof. by destruct i as [|[|i]]. Qed.

Lemma swap01_lt i dims : 2 ≤ dims → i < dims → swap01 i < dims.
Proof. destruct i as [|[|i]]; simpl; lia. Qed.

Lemma swapped_sym info info' : swapped info info' → swapped info' info.
Proof.
  intros (Hn & Hnames & Hb & Hnb & Horder). split_and!; try done.
  intros i. by rewrite <- Horder, swap01_involutive.
Qed.

Lemma py_index_nat {A} (xs : list A) (i : nat) :
  py_index xs (Z.of_nat i) = xs !! i.
Proof.
  unfold py_index. rewrite bool_decide_eq_true_2 by lia. by rewrite Nat2Z.id.
Qed.

Lemma with_axis_order_swapped info a b rest :
  axis_order info = a :: b :: rest →
  swapped info (with_axis_order (b :: a :: rest) info).
Proof.
  intros Horder. split_and!; try done.
  intros i. rewrite Horder, !py_index_nat. by destruct i as [|[|i]].
Qed.

Lemma labelled_swapped info info' i s :
  swapped info info' →
  labelled info (Z.of_nat i) s → labelled info' (Z.of_nat (swap01 i)) s.
Proof.
  intros (_ & Hnames & _ & _ & Horder) (k & Hk & Hs).
  exists k. by rewrite Horder, Hnames.
Qed.

Lemma projected_swapped info info' i l xs :
  swapped info info' →
  projected info (Z.of_nat i) l xs → projected info' (Z.of_nat (swap01 i)) l xs.
Proof.
  intros (_ & _ & _ & _ & Horder) Hxs.
  eapply Forall2_impl; [exact Hxs |].
  intros tv x (k & Hk & Hx). exists k. by rewrite Horder.
Qed.

Lemma readable_swapped info info' dims :
  2 ≤ dims → swapped info info' → readable dims info → readable dims info'.
Proof.
  intros Hdims Hsw [Hl Hp]. pose proof Hsw as (_ & _ & Hb & Hnb & _). split.
  - intros i Hi. destruct (Hl (swap01 i)) as [s Hs]; [by apply swap01_lt |].
    exists s. rewrite <- (swap01_involutive i). by eapply labelled_swapped.
  - intros group t l Hgroup Hg i Hi.
    assert (∃ group', (group' = non_best_trials_with_values
                       ∨ group' = best_trials_with_values)
                      ∧ group' info = Some (t :: l)) as (group' & Hgroup' & Hg').
    { destruct Hgroup as [-> | ->]; [rewrite Hnb in Hg | rewrite Hb in Hg]; eauto. }
    destruct (Hp group' t l Hgroup' Hg' (swap01 i)) as [xs Hxs];
      [by apply swap01_lt |].
    exists xs. rewrite <- (swap01_involutive i). by eapply projected_swapped.
Qed.

Lemma labelled_functional info i s s' :
  labelled info i s → labelled info i s' → s = s'.
Proof. intros (k & Hk & Hs) (k' & Hk' & Hs'). congruence. Qed.

Lemma projected_functional info i l xs xs' :
  projected info i l xs → projected info i l xs' → xs = xs'.
Proof.
  intros H. revert xs'. induction H as [|tv x l xs (k & Hk & Hx) _ IH];
    intros xs'; inversion 1 as [|? x' ? xs'' (k' & Hk' & Hx') Hrest]; subst;
    [done |].
  f_equal; [congruence | by apply IH].
Qed.

Lemma scatter_swapped dims info info' l color label c c' :
  dims = 2 ∨ dims = 3 →
  swapped info info' →
  scatter_of dims info l color label c →
  scatter_of dims info' l color label c' →
  c' = swap_xy c.
Proof.
  intros Hdims Hsw (Hcol & Hlab & Hlen & Hproj) (Hcol' & Hlab' & Hlen' & Hproj').
  assert (∀ (i : nat) xs xs',
            coords c !! swap01 i = Some xs → coords c' !! i = Some xs' →
            xs' = xs) as Hsame.
  { intros i xs xs' Hxs Hxs'.
    apply Hproj, (projected_swapped _ _ _ _ _ Hsw) in Hxs.
    rewrite swap01_involutive in Hxs.
    eapply projected_functional; [by apply Hproj' | done]. }
  destruct c as [x y col lab|x y z col lab], c' as [x' y' col' lab'|x' y' z' col' lab'];
    simpl in *; try lia; subst.
  - by rewrite (Hsame 0 y x'), (Hsame 1 x y').
  - by rewrite (Hsame 0 y x'), (Hsame 1 x y'), (Hsame 2 z z').
Qed.

Lemma group_drawn_swapped dims info info' g color label cs cs' :
  dims = 2 ∨ dims = 3 →
  swapped info info' →
  group_drawn dims info g color label cs →
  group_drawn dims info' g color label cs' →
  cs' = swap_xy <$> cs.
Proof.
  intros Hdims Hsw. unfold group_drawn.
  destruct g as [[|t l]|]; [by intros -> -> | | by intros -> ->].
  intros (c & -> & Hc) (c' & -> & Hc'). simpl.
  by rewrite (scatter_swapped _ _ _ _ _ _ _ _ Hdims Hsw Hc Hc').
Qed.

Lemma drawn_swapped proj info info' ax ax' :
  swapped info info' →
  drawn proj info ax → drawn proj info' ax' →
  (∀ i, axis_label ax' (swap01 i) = axis_label ax i)
  ∧ ax_collections ax' = swap_xy <$> ax_collections ax
  ∧ ax_legend ax' = ax_legend ax.
Proof.
  intros Hsw (Hp & _ & _ & Hlab & (cs1 & cs2 & Hcs & H1 & H2) & Hleg)
             (Hp' & _ & _ & Hlab' & (cs1' & cs2' & Hcs' & H1' & H2') & Hleg').
  pose proof Hsw as (_ & _ & Hb & Hnb & _).
  assert (n_axes proj = 2 ∨ n_axes proj = 3) as Hdims by (destruct proj; auto).
  rewrite Hb in H2'. rewrite Hnb in H1'.
  assert (ax_collections ax' = swap_xy <$> ax_collections ax) as Hcoll.
  { rewrite Hcs, Hcs', fmap_app.
    f_equal; by eapply group_drawn_swapped. }
  split_and!; [| done |].
  - intros i. destruct (decide (i < n_axes proj)) as [Hi|Hi].
    + destruct (Hlab i Hi) as (s & -> & Hs).
      destruct (Hlab' (swap01 i)) as (s' & -> & Hs'); [apply swap01_lt; lia |].
      f_equal. eapply labelled_functional; [done |].
      by eapply labelled_swapped.
    + unfold axis_label. rewrite Hp, Hp'.
      destruct proj, i as [|[|[|i]]]; simpl in *; done || lia.
  - rewrite Hleg, Hleg', Hnb. f_equal. unfold has_data. rewrite Hcoll.
    by destruct (ax_collections ax).
Qed.

(** X7. Exchanging the first two entries of [axis_order] exchanges the
    plotted x and y axes and nothing else: with 2 or 3 targets, if the
    render of the data hands back a surface then so does the render of the
    data with the two entries exchanged, with the x and y labels and the x
    and y coordinates of every collection exchanged, the z axis, the order
    of the collections and the legend as they were; and if the one raises,
    so does the other. *)
Theorem exchange_axes info p a b rest :
  n_targets info = 2%Z ∨ n_targets info = 3%Z →
  axis_order info = a :: b :: rest →
  match rendered info p with
  | Some ax =>
      ∃ ax',
        rendered (with_axis_order (b :: a :: rest) info) p = Some ax'
        ∧ ax_projection ax' = ax_projection ax
        ∧ (∀ i, axis_label ax' (swap01 i) = axis_label ax i)
        ∧ ax_collections ax' = swap_xy <$> ax_collections ax
        ∧ ax_legend ax' = ax_legend ax
  | None => rendered (with_axis_order (b :: a :: rest) info) p = None
  end.
Proof.
  intros Hn Horder.
  set (info' := with_axis_order (b :: a :: rest) info).
  pose proof (with_axis_order_swapped info a b rest Horder) as Hsw.
  fold info' in Hsw.
  assert (∃ dims : nat, (dims = 2 ∨ dims = 3) ∧ n_targets info = Z.of_nat dims)
    as (dims & Hdims & Hndims).
  { destruct Hn as [-> | ->]; [exists 2 | exists 3]; auto. }
  pose proof (rendered_iff_readable info p dims Hdims Hndims) as Hiff.
  pose proof (rendered_iff_readable info' p dims Hdims Hndims) as Hiff'.
  destruct (rendered info p) as [ax|] eqn:Hax.
  - destruct (proj1 Hiff') as [ax' Hax'].
    { eapply readable_swapped; [lia | done |]. apply Hiff. eauto. }
    exists ax'. split; [done |].
    apply rendered_drawn in Hax as (proj & Hproj & Hd).
    apply rendered_drawn in Hax' as (proj' & Hproj' & Hd').
    assert (proj' = proj) as ->.
    { unfold projection_for in *. simpl in Hproj'.
      destruct proj, proj'; simpl in *; done || lia. }
    split; [by destruct Hd as (-> & _), Hd' as (-> & _) |].
    by eapply drawn_swapped.
  - destruct (rendered info' p) as [ax'|] eqn:Hax'; [| done].
    assert (readable dims info) as Hread.
    { eapply readable_swapped; [lia | by apply swapped_sym |].
      apply Hiff'. eauto. }
    apply Hiff in Hread as [ax Hax'']. congruence.
Qed.

End Properties.

(** * Trial objects are not looked at *)

Section Retagged.
Context {Trial Trial' Value : Type} (f : Trial → Trial').

#[local] Abbreviation M0 := (@M Trial Value).
#[local] Abbreviation M1 := (@M Trial' Value).

Lemma tracks_ret {A' A} (R : A' → A → Prop) a' a :
  R a' a → tracks f R (mret a' : M1 A') (mret a : M0 A).
Proof. intros HR w. by split. Qed.

Lemma tracks_raise {A' A} (R : A' → A → Prop) e :
  tracks f R (raise e : M1 A') (raise e : M0 A).
Proof. intros w. by split. Qed.

Lemma tracks_bind {A' A B' B} (R : A' → A → Prop) (S : B' → B → Prop)
    (m' : M1 A') (m : M0 A) (k' : A' → M1 B') (k : A → M0 B) :
  tracks f R m' m →
  (∀ a' a, R a' a → tracks f S (k' a') (k a)) →
  tracks f S (m' ≫= k') (m ≫= k).
Proof.
  intros Hm Hk w. rewrite !run_bind. specialize (Hm w).
  destruct (m' (retag_world f w)) as [[a'|e'] w1'], (m w) as [[a|e] w1];
    try done.
  destruct Hm as [HR ->]. apply (Hk _ _ HR w1).
Qed.

Lemma tracks_attr {A' A} (R : A' → A → Prop)
    (field' : @ParetoFrontInfo Trial' Value → A')
    (field : @ParetoFrontInfo Trial Value → A) :
  (∀ info, R (field' (retag f info)) (field info)) →
  tracks f R (attr field') (attr field).
Proof. intros HR w. split; [apply HR | done]. Qed.

Lemma tracks_getitem {A} (xs : list A) i :
  tracks f eq (getitem xs i : M1 A) (getitem xs i : M0 A).
Proof. intros w. unfold getitem. by destruct (py_index xs i). Qed.

Lemma tracks_with_plt g :
  tracks f eq (with_plt g : M1 ()) (with_plt g : M0 ()).
Proof. intros w. by split. Qed.

Lemma tracks_figure : tracks f eq (plt_figure : M1 nat) (plt_figure : M0 nat).
Proof. intros w. by split. Qed.

Lemma tracks_add_subplot fig proj :
  tracks f eq (fig_add_subplot fig proj : M1 Handle)
              (fig_add_subplot fig proj : M0 Handle).
Proof. intros w. by split. Qed.

Lemma tracks_has_data h :
  tracks f eq (ax_has_data h : M1 bool) (ax_has_data h : M0 bool).
Proof. intros w. by split. Qed.

Lemma tracks_axis i : tracks f eq (axis i : M1 Z) (axis i : M0 Z).
Proof.
  unfold axis. eapply tracks_bind; [by apply (tracks_attr eq) |].
  intros ? order ->. apply tracks_getitem.
Qed.

Lemma tracks_axis_name i :
  tracks f eq (axis_name i : M1 string) (axis_name i : M0 string).
Proof.
  unfold axis_name. eapply tracks_bind; [by apply (tracks_attr eq) |].
  intros ? names ->. eapply tracks_bind; [apply tracks_axis |].
  intros ? k ->. apply tracks_getitem.
Qed.

Lemma tracks_mapM {A' A B} (g : A → A')
    (F' : A' → M1 B) (F : A → M0 B) (xs : list A) :
  (∀ x, tracks f eq (F' (g x)) (F x)) →
  tracks f eq (mapM F' (g <$> xs)) (mapM F xs).
Proof.
  intros HF. induction xs as [|x xs IH]; simpl; [by apply tracks_ret |].
  eapply tracks_bind; [apply HF |]. intros ? y ->.
  eapply tracks_bind; [apply IH |]. intros ? ys ->. by apply tracks_ret.
Qed.

Lemma group_fields_retag group' group (info : @ParetoFrontInfo Trial Value) :
  group_fields (Trial' := Trial') group' group → group' (retag f info) = retag_group f (group info).
Proof. by intros []. Qed.

Lemma tracks_coordinates i group' group :
  group_fields (Trial := Trial) (Trial' := Trial') (Value := Value) group' group →
  tracks f eq (coordinates i group' : M1 (list Value))
              (coordinates i group : M0 (list Value)).
Proof.
  intros Hg. unfold coordinates.
  eapply (tracks_bind
            (λ g' (g : option (list (Trial * list Value))),
               g' = retag_group f g)).
  { apply tracks_attr. intros info. by apply group_fields_retag. }
  intros ? g ->.
  eapply (tracks_bind
            (λ l' (l : list (Trial * list Value)),
               l' = prod_map f id <$> l)).
  { destruct g as [l|]; simpl; [by apply tracks_ret | apply tracks_raise]. }
  intros ? l ->. apply tracks_mapM. intros [t values]. simpl.
  eapply tracks_bind; [apply tracks_axis |]. intros ? k ->.
  apply tracks_getitem.
Qed.

Lemma len_positive_retag (g : option (list (Trial * list Value))) :
  not_none_and_len_positive (retag_group f g) = not_none_and_len_positive g.
Proof. by rewrite !len_positive_shape; destruct g as [[|t l]|]. Qed.

Lemma len_truthy_retag (g : option (list (Trial * list Value))) :
  not_none_and_len_truthy (retag_group f g) = not_none_and_len_truthy g.
Proof. by rewrite !len_truthy_shape; destruct g as [[|t l]|]. Qed.

Lemma is_not_none_retag (g : option (list (Trial * list Value))) : is_not_none (retag_group f g) = is_not_none g.
Proof. by destruct g. Qed.

Lemma tracks_subplots :
  tracks f eq (plt_subplots : M1 (nat * Handle)) (plt_subplots : M0 (nat * Handle)).
Proof.
  unfold plt_subplots. eapply tracks_bind; [apply tracks_figure |].
  intros ? fig ->. eapply tracks_bind; [apply tracks_add_subplot |].
  intros ? ax ->. by apply tracks_ret.
Qed.

Ltac track_step :=
  cbv beta iota zeta;
  lazymatch goal with
  | |- tracks _ _ (mret _) (mret _) => by apply tracks_ret
  | |- tracks _ _ (if ?b then _ else _) (if ?b then _ else _) => destruct b
  | |- tracks _ _ (attr _ ≫= _) (attr _ ≫= _) =>
      eapply (tracks_bind
                (λ g' (g : option (list (Trial * list Value))),
                   g' = retag_group f g));
      [ apply tracks_attr; intros; reflexivity
      | intros ? ? ->;
        rewrite ?len_positive_retag, ?len_truthy_retag, ?is_not_none_retag ]
  | |- tracks _ _ (_ ≫= _) (_ ≫= _) =>
      eapply (tracks_bind eq); [| intros ? ? ->]
  | |- tracks _ _ (coordinates _ _) _ => apply tracks_coordinates; constructor
  | |- tracks _ _ (axis_name _) _ => apply tracks_axis_name
  | |- tracks _ _ plt_subplots _ => apply tracks_subplots
  | |- tracks _ _ plt_figure _ => apply tracks_figure
  | |- tracks _ _ (fig_add_subplot _ _) _ => apply tracks_add_subplot
  | |- tracks _ _ (ax_has_data _) _ => apply tracks_has_data
  | |- tracks _ _ (plt_style_use _) _ => apply tracks_with_plt
  | |- tracks _ _ (update_axes _ _) _ => apply tracks_with_plt
  end.

Lemma tracks_2d :
  tracks f eq (_get_pareto_front_2d : M1 Handle) (_get_pareto_front_2d : M0 Handle).
Proof.
  unfold _get_pareto_front_2d.
  eapply (tracks_bind eq); [apply tracks_with_plt | intros ? ? ->].
  eapply (tracks_bind eq); [apply tracks_subplots | intros ? [fig ax] ->].
  repeat track_step.
Qed.

Lemma tracks_3d :
  tracks f eq (_get_pareto_front_3d : M1 Handle) (_get_pareto_front_3d : M0 Handle).
Proof. unfold _get_pareto_front_3d. repeat track_step. Qed.

Lemma tracks_plot :
  tracks f eq (plot_pareto_front : M1 Handle) (plot_pareto_front : M0 Handle).
Proof.
  unfold plot_pareto_front.
  eapply (tracks_bind eq); [by apply tracks_attr | intros ? n ->].
  destruct (bool_decide (n = 2%Z)); [apply tracks_2d |].
  eapply (tracks_bind eq); [by apply tracks_attr | intros ? n' ->].
  destruct (bool_decide (n' = 3%Z)); [apply tracks_3d |].
  eapply (tracks_bind eq); [by apply tracks_attr | intros ? n'' ->].
  apply tracks_raise.
Qed.

(** X8. The renderer does not look at the trial objects: replacing every
    trial of the data by another object, the objective values staying,
    changes neither what the render hands back or raises nor what it does
    to pyplot. *)
Theorem trial_objects_ignored (info : @ParetoFrontInfo Trial Value) p :
  observe (render (retag f info) p) = observe (render info p)
  ∧ plt (render (retag f info) p).2 = plt (render info p).2.
Proof.
  pose proof (tracks_plot {| passed := info; plt := p |}) as H.
  unfold render. unfold retag_world in H. cbn [passed plt] in H.
  destruct (plot_pareto_front {| passed := retag f info; plt := p |})
    as [[h'|e'] w1'],
    (plot_pareto_front {| passed := info; plt := p |}) as [[h|e] w1];
    try done; destruct H as [-> ->]; done.
Qed.

End Retagged.

(** * The sample data, run *)

Import Samples.

(** The swapped 2D sample: the best point lands at (2, 1), the dominated
    one at (4, 3), x is labelled B and y is labelled A, with a legend. *)
Example swapped_2d_rendered :
  rendered swapped_2d fresh_pyplot
  = Some {| ax_projection := Rectilinear;
            ax_style := "ggplot";
            ax_title := "Pareto-front Plot";
            ax_xlabel := "B"; ax_ylabel := "A"; ax_zlabel := "";
            ax_collections :=
              [Scatter2d [4] [3] (plt_get_cmap "tab10" 0) "Trial";
               Scatter2d [2] [1] (plt_get_cmap "tab10" 3) "Best Trial"]%Z;
            ax_legend := true |}.
Proof. vm_compute. reflexivity. Qed.

Example rotated_3d_rendered :
  rendered rotated_3d fresh_pyplot
  = Some {| ax_projection := Projection3d;
            ax_style := "ggplot";
            ax_title := "Pareto-front Plot";
            ax_xlabel := "C"; ax_ylabel := "A"; ax_zlabel := "B";
            ax_collections :=
              [Scatter3d [6; 9] [4; 7] [5; 8] (plt_get_cmap "tab10" 0) "Trial";
               Scatter3d [3] [1] [2] (plt_get_cmap "tab10" 3) "Best Trial"]%Z;
            ax_legend := true |}.
Proof. vm_compute. reflexivity. Qed.

(** An empty best group and no dominated group: an empty, labelled 3D plot
    without a legend. *)
Example empty_3d_rendered :
  rendered (Trial := string) (Value := Z)
    {| n_targets := 3; target_names := ["A"; "B"; "C"];
       axis_order := [0; 1; 2]%Z;
       best_trials_with_values := Some [];
       non_best_trials_with_values := None |}
    fresh_pyplot
  = Some {| ax_projection := Projection3d;
            ax_style := "ggplot";
            ax_title := "Pareto-front Plot";
            ax_xlabel := "A"; ax_ylabel := "B"; ax_zlabel := "C";
            ax_collections := [];
            ax_legend := false |}.
Proof. vm_compute. reflexivity. Qed.

(** A value tuple shorter than the axis order asks for is not defended
    against: the subscript raises. *)
Example short_tuple_raises :
  observe (render (Trial := string) (Value := Z)
             {| n_targets := 2; target_names := ["A"; "B"];
                axis_order := [0; 1]%Z;
                best_trials_with_values := Some [("t1", [1]%Z)];
                non_best_trials_with_values := None |}
             fresh_pyplot)
  = inl IndexError.
Proof. vm_compute. reflexivity. Qed.

(** * Witnesses *)

Lemma legend_attached_iff_witness :
  (n_targets swapped_2d = 2%Z ∨ n_targets swapped_2d = 3%Z)
  ∧ valid_info swapped_2d = true
  ∧ ∃ ax, rendered swapped_2d fresh_pyplot = Some ax
          ∧ (ax_legend ax = true
             ↔ non_best_trials_with_values swapped_2d ≠ None
               ∧ 0 < points_drawn ax).
Proof.
  split; [left; reflexivity |]. split; [reflexivity |].
  destruct (legend_attached_iff swapped_2d fresh_pyplot (or_introl eq_refl))
    as [Hex Hiff].
  destruct (Hex eq_refl) as [ax Hax].
  exists ax. split; [exact Hax | exact (Hiff ax Hax)].
Defined.

Lemma unsupported_dimensionality_witness :
  n_targets four_targets ≠ 2%Z ∧ n_targets four_targets ≠ 3%Z
  ∧ render four_targets fresh_pyplot
    = (Raised (ValueError
         "`plot_pareto_front` function only supports 2 or 3 targets. you used 4 targets now."),
       {| passed := four_targets; plt := fresh_pyplot |}).
Proof.
  assert (n_targets four_targets ≠ 2%Z) as H2 by (simpl; lia).
  assert (n_targets four_targets ≠ 3%Z) as H3 by (simpl; lia).
  split; [exact H2 |]. split; [exact H3 |].
  exact (proj1 (unsupported_dimensionality four_targets fresh_pyplot H2 H3)).
Defined.

Lemma points_and_coordinates_witness :
  valid_info rotated_3d = true
  ∧ n_targets rotated_3d = Z.of_nat 3
  ∧ ∃ ax, rendered rotated_3d fresh_pyplot = Some ax
          ∧ n_axes (ax_projection ax) = 3
          ∧ points_drawn ax = 3.
Proof.
  split; [reflexivity |]. split; [reflexivity |].
  destruct (points_and_coordinates rotated_3d fresh_pyplot 3 eq_refl
              (or_intror eq_refl) eq_refl)
    as (ax & Hax & Hn & _ & _ & Hpoints).
  exists ax. split; [exact Hax |]. split; [exact Hn | exact Hpoints].
Defined.

Lemma axis_labels_witness :
  valid_info swapped_2d = true
  ∧ (n_targets swapped_2d = 2%Z ∨ n_targets swapped_2d = 3%Z)
  ∧ ∃ ax, rendered swapped_2d fresh_pyplot = Some ax
          ∧ ∃ k s, axis_label ax 0 = Some s
                   ∧ py_index (axis_order swapped_2d) 0 = Some k
                   ∧ py_index (target_names swapped_2d) k = Some s.
Proof.
  split; [reflexivity |]. split; [left; reflexivity |].
  destruct (axis_labels swapped_2d fresh_pyplot eq_refl (or_introl eq_refl))
    as (ax & Hax & Hlabels).
  exists ax. split; [exact Hax |]. apply (Hlabels 0). simpl. lia.
Defined.

Lemma legend_edge_cases_witness :
  (valid_info best_only = true
   ∧ (n_targets best_only = 2%Z ∨ n_targets best_only = 3%Z)
   ∧ ∃ ax, rendered best_only fresh_pyplot = Some ax
           ∧ points_drawn ax = 2 ∧ ax_legend ax = false)
  ∧ (valid_info none_dominated = true
     ∧ (n_targets none_dominated = 2%Z ∨ n_targets none_dominated = 3%Z)
     ∧ ∃ ax, rendered none_dominated fresh_pyplot = Some ax
             ∧ ax_legend ax = true).
Proof.
  split.
  - split; [reflexivity |]. split; [left; reflexivity |].
    destruct (legend_edge_cases best_only fresh_pyplot _ _ eq_refl
                (or_introl eq_refl) eq_refl)
      as (ax & Hax & Habsent & _).
    exists ax. split; [exact Hax |]. exact (Habsent eq_refl).
  - split; [reflexivity |]. split; [right; reflexivity |].
    destruct (legend_edge_cases none_dominated fresh_pyplot _ _ eq_refl
                (or_intror eq_refl) eq_refl)
      as (ax & Hax & _ & Hempty).
    exists ax. split; [exact Hax |]. exact (proj1 (Hempty eq_refl)).
Defined.

Lemma render_twice_identical_witness :
  valid_info swapped_2d = true
  ∧ (n_targets swapped_2d = 2%Z ∨ n_targets swapped_2d = 3%Z)
  ∧ ∃ ax, observe (render swapped_2d fresh_pyplot) = inr (Some ax)
          ∧ observe (render swapped_2d
                       (plt (render swapped_2d fresh_pyplot).2))
            = inr (Some ax).
Proof.
  split; [reflexivity |]. split; [left; reflexivity |].
  exact (proj2 (proj2 (render_twice_identical swapped_2d fresh_pyplot))
           eq_refl (or_introl eq_refl)).
Defined.

Lemma render_effects_witness :
  valid_info rotated_3d = true
  ∧ (n_targets rotated_3d = 2%Z ∨ n_targets rotated_3d = 3%Z)
  ∧ passed (render rotated_3d fresh_pyplot).2 = rotated_3d
  ∧ ∃ ax, rendered rotated_3d fresh_pyplot = Some ax
          ∧ plt (render rotated_3d fresh_pyplot).2
            = {| rc_style := "ggplot";
                 figs := <[next_num (figs fresh_pyplot) := [ax]]>
                           (figs fresh_pyplot) |}
          ∧ figs fresh_pyplot !! next_num (figs fresh_pyplot) = None.
Proof.
  split; [reflexivity |]. split; [right; reflexivity |].
  destruct (render_effects rotated_3d fresh_pyplot) as (Hinfo & Hplt).
  split; [exact Hinfo |]. exact (Hplt eq_refl (or_intror eq_refl)).
Defined.

Lemma group_colors_witness :
  valid_info rotated_3d = true
  ∧ (n_targets rotated_3d = 2%Z ∨ n_targets rotated_3d = 3%Z)
  ∧ ∃ ax, rendered rotated_3d fresh_pyplot = Some ax
          ∧ ∀ c, c ∈ ax_collections ax →
              label_of c = "Trial" ∧ color_of c = plt_get_cmap "tab10" 0%Z
              ∨ label_of c = "Best Trial"
                ∧ color_of c = plt_get_cmap "tab10" 3%Z.
Proof.
  split; [reflexivity |]. split; [right; reflexivity |].
  destruct (group_colors rotated_3d fresh_pyplot eq_refl (or_intror eq_refl))
    as (ax & Hax & _ & _ & Hall & _).
  exists ax. split; [exact Hax | exact Hall].
Defined.

Lemma non_best_drawn_first_witness :
  valid_info swapped_2d = true
  ∧ (n_targets swapped_2d = 2%Z ∨ n_targets swapped_2d = 3%Z)
  ∧ ∃ ax c1 c2, rendered swapped_2d fresh_pyplot = Some ax
                ∧ ax_collections ax = [c1; c2]
                ∧ label_of c1 = "Trial" ∧ label_of c2 = "Best Trial".
Proof.
  split; [reflexivity |]. split; [left; reflexivity |].
  destruct (non_best_drawn_first swapped_2d fresh_pyplot _ _ _ _ eq_refl
              (or_introl eq_refl) eq_refl eq_refl)
    as (ax & c1 & c2 & Hax & Hcs & Hl1 & _ & _ & Hl2 & _).
  exists ax, c1, c2. split; [exact Hax |]. split; [exact Hcs |].
  split; [exact Hl1 | exact Hl2].
Defined.

(** Both routines run on the three-target sample: the 2D routine plots its
    first two reordered axes. *)
Lemma drawing_guards_agree_witness :
  ∃ ax2 ax3,
    surface (_get_pareto_front_2d {| passed := rotated_3d; plt := fresh_pyplot |})
    = Some ax2
    ∧ surface (_get_pareto_front_3d {| passed := rotated_3d; plt := fresh_pyplot |})
      = Some ax3
    ∧ label_of <$> ax_collections ax2 = label_of <$> ax_collections ax3
    ∧ n_points <$> ax_collections ax2 = n_points <$> ax_collections ax3.
Proof.
  eexists _, _.
  assert (∀ (a b : option (@Axes Z)) (P : Prop), a = b → (a = b → P) → a = b ∧ P)
    as Hcut by (intros a b P H HP; exact (conj H (HP H))).
  apply Hcut; [vm_compute; reflexivity | intros H2].
  apply Hcut; [vm_compute; reflexivity | intros H3].
  exact (proj2 (drawing_guards_agree rotated_3d fresh_pyplot fresh_pyplot)
           _ _ H2 H3).
Defined.

(** * Counterexample *)

(** C7 as stated fails: a render of well-formed data does not leave the
    world as it found it.  On a fresh pyplot the style sheet in force
    afterwards is ggplot, not the default. *)
Lemma render_not_stateless :
  valid_info swapped_2d = true
  ∧ (render swapped_2d fresh_pyplot).2
    ≠ {| passed := swapped_2d; plt := fresh_pyplot |}.
Proof.
  split; [reflexivity |].
  intros H. apply (f_equal (λ w, rc_style (plt w))) in H.
  vm_compute in H. discriminate H.
Qed.

(** * Witnesses of the further properties *)

Import Oddities.

Lemma render_returns_iff_readable_witness :
  (2 = 2 ∨ 2 = 3)
  ∧ n_targets swapped_2d = Z.of_nat 2
  ∧ (readable 2 swapped_2d ↔ ∃ ax, rendered swapped_2d fresh_pyplot = Some ax)
  ∧ (¬ readable 2 swapped_2d
     ↔ ∃ w, render swapped_2d fresh_pyplot = (Raised IndexError, w)).
Proof.
  split; [left; reflexivity |]. split; [reflexivity |].
  exact (render_returns_iff_readable swapped_2d fresh_pyplot 2
           (or_introl eq_refl) eq_refl).
Defined.

Lemma failed_render_leaves_figure_witness :
  (n_targets short_tuple = 2%Z ∨ n_targets short_tuple = 3%Z)
  ∧ (render short_tuple busy_pyplot).1 = Raised IndexError
  ∧ ∃ ax,
      plt (render short_tuple busy_pyplot).2
      = {| rc_style := "ggplot";
           figs := <[next_num (figs busy_pyplot) := [ax]]> (figs busy_pyplot) |}
      ∧ Z.of_nat (n_axes (ax_projection ax)) = n_targets short_tuple
      ∧ ax_title ax = "Pareto-front Plot"
      ∧ ax_legend ax = false.
Proof.
  split; [left; reflexivity |].
  assert ((render short_tuple busy_pyplot).1 = Raised IndexError) as He
    by (vm_compute; reflexivity).
  split; [exact He |].
  exact (proj2 (proj2 (failed_render_leaves_figure short_tuple busy_pyplot
                         IndexError (or_introl eq_refl) He))).
Defined.

Lemma open_figures_untouched_witness :
  figs busy_pyplot !! 1 = Some [new_axes Rectilinear "default"]
  ∧ figs (plt (render rotated_3d busy_pyplot).2) !! 1
    = Some [new_axes Rectilinear "default"].
Proof.
  assert (figs busy_pyplot !! 1 = Some [new_axes Rectilinear "default"]) as H
    by (vm_compute; reflexivity).
  split; [exact H |].
  exact (open_figures_untouched rotated_3d busy_pyplot 1 _ H).
Defined.

Lemma collections_well_formed_witness :
  ∃ ax,
    rendered swapped_2d fresh_pyplot = Some ax
    ∧ length (ax_collections ax) ≤ 2
    ∧ NoDup (label_of <$> ax_collections ax).
Proof.
  eexists. split; [exact swapped_2d_rendered |].
  destruct (collections_well_formed swapped_2d fresh_pyplot _ swapped_2d_rendered)
    as (Hlen & Hlabels & _).
  split; [exact Hlen | exact Hlabels].
Defined.

Lemma empty_plot_witness :
  valid_info nothing_found = true
  ∧ (n_targets nothing_found = 2%Z ∨ n_targets nothing_found = 3%Z)
  ∧ group_size (non_best_trials_with_values nothing_found) = 0
  ∧ group_size (best_trials_with_values nothing_found) = 0
  ∧ ∃ ax,
      rendered nothing_found fresh_pyplot = Some ax
      ∧ ax_collections ax = []
      ∧ ax_legend ax = false
      ∧ ax_title ax = "Pareto-front Plot"
      ∧ Z.of_nat (n_axes (ax_projection ax)) = n_targets nothing_found.
Proof.
  split; [reflexivity |]. split; [right; reflexivity |].
  split; [reflexivity |]. split; [reflexivity |].
  exact (empty_plot nothing_found fresh_pyplot eq_refl (or_intror eq_refl)
           eq_refl eq_refl).
Defined.

Lemma unsupported_message_inj_witness :
  unsupported_message (n_targets four_targets) = unsupported_message 4
  ∧ n_targets four_targets = 4%Z.
Proof.
  split; [reflexivity |].
  exact (unsupported_message_inj (n_targets four_targets) 4 eq_refl).
Defined.

Lemma exchange_axes_witness :
  (n_targets rotated_3d = 2%Z ∨ n_targets rotated_3d = 3%Z)
  ∧ axis_order rotated_3d = [2; 0; 1]%Z
  ∧ ∃ ax ax',
      rendered rotated_3d fresh_pyplot = Some ax
      ∧ rendered (with_axis_order [0; 2; 1]%Z rotated_3d) fresh_pyplot = Some ax'
      ∧ ax_collections ax' = swap_xy <$> ax_collections ax
      ∧ ax_legend ax' = ax_legend ax.
Proof.
  split; [right; reflexivity |]. split; [reflexivity |].
  pose proof (exchange_axes rotated_3d fresh_pyplot 2 0 [1]%Z
                (or_intror eq_refl) eq_refl) as H.
  rewrite rotated_3d_rendered in H.
  destruct H as (ax' & Hax' & _ & _ & Hcs & Hleg).
  eexists _, ax'. split; [exact rotated_3d_rendered |].
  split; [exact Hax' |]. split; [exact Hcs | exact Hleg].
Defined.
